(** * FreshPredict: a shallow embedding of the dashboard client and of the
    forecast and alert core it talks to.

    The client components (TypeScript/React) are embedded as pure functions
    from props, component state and the outcome of a network request to the
    values they put on screen.  Component state is threaded explicitly.

    Numbers.  The engine computes in binary64.  Two embeddings are used.

    - Where the subject is the number a computation yields (the methane
      offset, a figure printed by [toFixed]), the number is a binary64 value:
      a primitive float, whose operations are the IEEE 754 ones
      (module [Js64] and the definitions built on it).

    - Where the subject is a comparison, a count or the shape of a list, the
      numbers of the wire format (JSON, hence finite) are embedded as exact
      rationals [Q], and [Js.number] adds [Infinity], [-Infinity] and [NaN]
      for a zero divisor, [Math.max] of nothing and arithmetic on
      [undefined].  Rounding, overflow and the sign of a zero are left out of
      this second embedding, so the properties stated on it are those that do
      not depend on them: comparisons of a quotient with a threshold on
      inputs for which rounding is monotone, bounds by the maximum, and
      finiteness under an explicit bound on magnitudes ([Js.in_range]).

    Integral quantities (day counts, list limits) are embedded as [Z]. *)

From Stdlib Require Import ZArith QArith Qround Qabs List Ascii DecimalString DecimalPos Lia Lqa.
From Stdlib Require Import Floats Uint63.
From stdpp Require Import base gmap sets strings list sorting.
Import ListNotations.

Set Warnings "-inexact-float".

(** ** JavaScript primitives used by the components *)

Module Js.

(** A number as client arithmetic can produce it. *)
Inductive number : Type :=
| Fin (q : Q)
| PosInf
| NegInf
| NaN.


(** Whether [x] is a zero. *)
Definition is_zero (x : number) : bool :=
  match x with Fin q => Qeq_bool q 0 | _ => false end.

Definition inf_of_sign (nonneg : bool) : number :=
  if nonneg then PosInf else NegInf.

(** [x / y], as the exact quotient.  A zero divisor gives [NaN] for a zero
    dividend and a signed infinity otherwise; the sign of a zero is not
    tracked (a divisor [-0] is read as [0]), and a quotient is not rounded
    and does not overflow. *)
Definition div (x y : number) : number :=
  match x, y with
  | NaN, _ | _, NaN => NaN
  | Fin a, Fin b =>
      if Qeq_bool b 0 then
        if Qeq_bool a 0 then NaN else inf_of_sign (Qle_bool 0 a)
      else Fin (a / b)
  | Fin _, PosInf | Fin _, NegInf => Fin 0
  | PosInf, Fin b => inf_of_sign (Qle_bool 0 b)
  | NegInf, Fin b => inf_of_sign (negb (Qle_bool 0 b))
  | _, _ => NaN
  end.

(** [x * y], as the exact product: not rounded, and finite for finite
    operands. *)
Definition mul (x y : number) : number :=
  match x, y with
  | NaN, _ | _, NaN => NaN
  | Fin a, Fin b => Fin (a * b)
  | Fin a, PosInf | PosInf, Fin a =>
      if Qeq_bool a 0 then NaN else inf_of_sign (Qle_bool 0 a)
  | Fin a, NegInf | NegInf, Fin a =>
      if Qeq_bool a 0 then NaN else inf_of_sign (negb (Qle_bool 0 a))
  | PosInf, PosInf | NegInf, NegInf => PosInf
  | PosInf, NegInf | NegInf, PosInf => NegInf
  end.

Definition max2 (x y : number) : number :=
  match x, y with
  | NaN, _ | _, NaN => NaN
  | PosInf, _ | _, PosInf => PosInf
  | NegInf, z | z, NegInf => z
  | Fin a, Fin b => Fin (if Qle_bool a b then b else a)
  end.

(** [Math.max(...xs)]: [-Infinity] for no argument. *)
Definition Math_max (xs : list number) : number :=
  fold_right max2 NegInf xs.

(** [xs[i]] used as an operand: an index past the end reads [undefined],
    which arithmetic turns into [NaN]. *)
Definition operand (xs : list Q) (i : nat) : number :=
  match xs !! i with
  | Some q => Fin q
  | None => NaN
  end.

(** A template literal [`${z}`] for an integral number: all its decimal
    digits, which is what the engine prints for an integer below 10^21 in
    magnitude that binary64 holds exactly (every integer up to 2^53). *)
Definition template (z : Z) : string :=
  NilZero.string_of_int (Z.to_int z).

(** [Math.round]: the nearest integer, ties towards +Infinity. *)
Definition Math_round (x : Q) : Z := Qfloor (x + (1 # 2)).

(** Truthiness of a finite number. *)
Definition truthy (x : Q) : bool := negb (Qeq_bool x 0).

Definition digit_of (c : ascii) : option Z :=
  let n := nat_of_ascii c in
  if (48 <=? n)%nat && (n <=? 57)%nat then Some (Z.of_nat (n - 48)) else None.

Fixpoint parse_digits (s : string) (acc : option Z) : option Z :=
  match s with
  | EmptyString => acc
  | String c s' =>
      match digit_of c with
      | Some d => parse_digits s' (Some (10 * default 0 acc + d))%Z
      | None => acc
      end
  end.

(** [parseInt(s)] in radix 10 for a string that starts with its sign or
    first digit: an optional sign, then the longest prefix of decimal
    digits; [None] stands for [NaN].  Leading white space and a [0x] prefix
    are not handled. *)
Definition parseInt (s : string) : option Z :=
  match s with
  | String "-" s' => Z.opp <$> parse_digits s' None
  | String "+" s' => parse_digits s' None
  | _ => parse_digits s None
  end.

(** [xs.slice(0, e)] for an integral [e]: a negative end counts from the
    back of the array, and the end is clamped to the array. *)
Definition slice0 {A} (xs : list A) (e : Z) : list A :=
  let len := Z.of_nat (length xs) in
  let final := if (e <? 0)%Z then Z.max (len + e) 0 else Z.min e len in
  take (Z.to_nat final) xs.

(** [x <= y]: false as soon as an operand is [NaN]. *)
Definition le (x y : number) : bool :=
  match x, y with
  | NaN, _ | _, NaN => false
  | NegInf, _ => true
  | _, PosInf => true
  | Fin a, Fin b => Qle_bool a b
  | _, _ => false
  end.

(** Truthiness of a string: only the empty string is falsy. *)
Definition truthy_string (s : string) : bool := negb (String.eqb s "").

(** Where [x] goes in a list that is sorted by [key]: before the first
    element whose key is not smaller. *)
Fixpoint insert_by {A} (key : A -> Z) (x : A) (xs : list A) : list A :=
  match xs with
  | [] => [x]
  | y :: ys =>
      if (key x <=? key y)%Z then x :: y :: ys else y :: insert_by key x ys
  end.

(** [xs.sort((a, b) => key(a) - key(b))] for an integral key.  The
    comparator is consistent, so the result is the stable ascending order,
    whatever algorithm the engine runs; it is computed here by insertion. *)
Definition sort_by {A} (key : A -> Z) (xs : list A) : list A :=
  fold_right (insert_by key) [] xs.


End Js.

(** ** Binary64 numbers

    The numbers of the engine as primitive floats.  [Prim2SF] gives the
    sign, mantissa and exponent of a float, from which its exact value and
    its decimal expansion are computed. *)

Module Js64.

(** The exact value of a finite number; [None] for [NaN] and the
    infinities. *)
Definition value (x : float) : option Q :=
  match Prim2SF x with
  | S754_zero _ => Some 0%Q
  | S754_finite s m e =>
      let mag := if (0 <=? e)%Z then inject_Z (Z.pos m * 2 ^ e)
                 else Z.pos m # 2 ^ Z.to_pos (- e) in
      Some (if s then - mag else mag)%Q
  | S754_infinity _ | S754_nan => None
  end.

(** Truthiness of a number: the two zeros and [NaN] are falsy. *)
Definition truthy (x : float) : bool :=
  match Prim2SF x with
  | S754_zero _ | S754_nan => false
  | _ => true
  end.

(** [x === y] on numbers. *)
Definition strict_eq (x y : float) : bool := PrimFloat.eqb x y.

(** The number that holds the integer [z], for [z] below 2^53 in
    magnitude. *)
Definition of_Z (z : Z) : float :=
  match z with
  | Z0 => PrimFloat.zero
  | Z.pos _ => PrimFloat.of_uint63 (Uint63.of_Z z)
  | Z.neg p => PrimFloat.opp (PrimFloat.of_uint63 (Uint63.of_Z (Z.pos p)))
  end.

(** [Math.round]: the nearest integer, ties towards +Infinity; a result of
    zero keeps the sign of the argument; from 2^52 on every number is an
    integer already. *)
Definition Math_round (x : float) : float :=
  match value x with
  | Some q =>
      if Qle_bool (inject_Z (2 ^ 52)) (Qabs q) then x
      else
        let n := Qfloor (q + (1 # 2)) in
        if (n =? 0)%Z
        then (if PrimFloat.get_sign x then PrimFloat.neg_zero else PrimFloat.zero)
        else of_Z n
  | None => x
  end.

(** [s] padded with zeros on the left to at least [width] characters. *)
Definition pad (width : nat) (s : string) : string :=
  String.concat "" (replicate (width - String.length s) "0") +:+ s.

(** The digits [toFixed] prints for a magnitude [q]: with [n] the integer
    for which [n / 10^fractionDigits - q] is closest to zero (the larger one
    of two), the decimal digits of [n] with the point put before the last
    [fractionDigits] of them.  From 10^21 on [toFixed] prints the exponent
    form instead, which is not embedded: [None]. *)
Definition digits_text (fractionDigits : nat) (q : Q) : option string :=
  if Qle_bool (inject_Z (10 ^ 21)) q then None
  else
    let n := Qfloor (q * inject_Z (10 ^ Z.of_nat fractionDigits) + (1 # 2)) in
    let m := pad (S fractionDigits) (Js.template n) in
    let k := (String.length m - fractionDigits)%nat in
    Some (if (fractionDigits =? 0)%nat then m
          else String.substring 0 k m +:+ "." +:+ String.substring k fractionDigits m).

(** [x.toFixed(fractionDigits)]. *)
Definition toFixed (fractionDigits : nat) (x : float) : option string :=
  match Prim2SF x with
  | S754_nan => Some "NaN"
  | S754_infinity s => Some (if s then "-Infinity" else "Infinity")
  | S754_zero _ => digits_text fractionDigits 0
  | S754_finite s _ _ =>
      match value x with
      | Some q =>
          if s then String.append "-" <$> digits_text fractionDigits (- q)
          else digits_text fractionDigits q
      | None => None
      end
  end.

End Js64.

(** ** lib/api.ts: the types shared by the components *)

Module Api.

Inductive Trend := increasing | decreasing | stable.

(** [dates] are ISO date strings on the wire; they are kept as day numbers. *)
Record ForecastResult := {
  product_id : string;
  product_name : string;
  dates : list Z;
  predicted_demand : list Q;
  confidence_lower : list Q;
  confidence_upper : list Q;
  trend : Trend;
  festive_impact : option string
}.

Inductive SustainabilityAlertType := expiry_risk | overstock | slow_moving.
Inductive PreparationAlertType := demand_spike | stock_out_risk | festive_surge.
Inductive Severity := high | medium | low.

Record PreparationAlert := {
  p_id : string;
  p_product_id : string;
  p_product_name : string;
  p_alert_type : PreparationAlertType;
  p_severity : Severity;
  p_message : string;
  p_recommended_action : string;
  predicted_demand_increase : Q;
  days_until_event : Z;
  p_created_at : string
}.

Record SustainabilityAlert := {
  id : string;
  alert_product_id : string;
  alert_product_name : string;
  alert_type : SustainabilityAlertType;
  severity : Severity;
  message : string;
  recommended_action : string;
  days_until_expiry : Z;
  potential_waste_kg : Q;
  potential_loss_rm : Q;
  created_at : string
}.

Record MonthlyTrend := {
  month : string;
  waste_kg : Q;
  saved_kg : Q
}.

Record ESGMetrics := {
  waste_saved_kg : Q;
  methane_offset_kg_co2e : Q;
  cost_savings_rm : Q;
  items_rescued : Q;
  waste_reduction_percentage : Q;
  compliance_score : Q;
  monthly_trend : list MonthlyTrend
}.

(** [demand_multiplier] enters the arithmetic of the banner and is kept as
    the binary64 number it is once the response is decoded. *)
Record Festival := {
  name : string;
  date : Z;
  impact_categories : list string;
  demand_multiplier : float;
  days_until : Z
}.

Inductive Category := poultry | produce | dairy.

Global Instance ItemCategory_eq_dec : EqDecision Category.
Proof. solve_decision. Defined.

(** [expiry_date] is an ISO date string on the wire; it is kept as the
    timestamp [new Date(expiry_date).getTime()], in milliseconds. *)
Record InventoryItem := {
  item_id : string;
  item_name : string;
  item_category : Category;
  current_stock : Q;
  unit : string;
  cost_per_unit : Q;
  expiry_date : Z;
  reorder_point : Q;
  supplier : string
}.

(** [api.getForecast] and [api.getAllForecasts]: the [days] parameter
    defaults to 14; the value is put in the query string. *)
Definition getForecast_days (days : option Z) : Z := default 14%Z days.
Definition getAllForecasts_days (days : option Z) : Z := default 14%Z days.

End Api.

(** ** components/ESGScorecard.tsx

    Which metrics the scorecard holds, and the bars of the monthly trend.
    The figures are exact rationals here; the binary64 values of the legacy
    and fallback figures are those of [ESGScorecard64] below. *)

Module ESGScorecard.
Import Api.

(** Legacy support: metrics created from [wasteSavedKg]. *)
Definition legacy_metrics (wasteSavedKg : Q) : ESGMetrics := {|
  waste_saved_kg := wasteSavedKg;
  methane_offset_kg_co2e := wasteSavedKg * 0.918;
  cost_savings_rm := wasteSavedKg * 15;
  items_rescued := inject_Z (Js.Math_round (wasteSavedKg * 0.3));
  waste_reduction_percentage := (wasteSavedKg / 180) * 100;
  compliance_score := 85;
  monthly_trend := []
|}.

(** The fallback data set when the request for /esg fails. *)
Definition fallback_metrics : ESGMetrics := {|
  waste_saved_kg := 150;
  methane_offset_kg_co2e := 137.7;
  cost_savings_rm := 2250;
  items_rescued := 42;
  waste_reduction_percentage := 83.3;
  compliance_score := 85;
  monthly_trend := []
|}.

(** What [fetchMetrics] observes: a decoded body, or a failure (a response
    that is not ok, or an exception), which the [catch] block handles. *)
Inductive FetchOutcome :=
| FetchOk (data : ESGMetrics)
| FetchFailed.

Definition given_and_truthy (wasteSavedKg : option Q) : bool :=
  match wasteSavedKg with
  | Some w => Js.truthy w
  | None => false
  end.

(** The [metrics] state once the effect has run.  The state starts as
    [propMetrics || null]; the effect overwrites it on the legacy path and
    on the fetch path. *)
Definition metrics_state (wasteSavedKg : option Q)
    (propMetrics : option ESGMetrics) (o : FetchOutcome) : option ESGMetrics :=
  if bool_decide (is_Some propMetrics) || given_and_truthy wasteSavedKg then
    if given_and_truthy wasteSavedKg && negb (bool_decide (is_Some propMetrics))
    then legacy_metrics <$> wasteSavedKg
    else propMetrics
  else
    match o with
    | FetchOk data => Some data
    | FetchFailed => Some fallback_metrics
    end.

Record TrendBar := {
  wasteHeight : Js.number;
  savedHeight : Js.number
}.

Definition maxWaste (ms : list MonthlyTrend) : Js.number :=
  Js.Math_max (map (fun m => Js.Fin (waste_kg m)) ms).

(** The bars of the monthly trend; the block is rendered only for a
    non-empty trend, and [map] over an empty trend yields no bar anyway. *)
Definition trend_bars (m : ESGMetrics) : list TrendBar :=
  map (fun mo => {|
         wasteHeight := Js.mul (Js.div (Js.Fin (waste_kg mo)) (maxWaste (monthly_trend m))) (Js.Fin 100);
         savedHeight := Js.mul (Js.div (Js.Fin (saved_kg mo)) (maxWaste (monthly_trend m))) (Js.Fin 100)
       |})
      (monthly_trend m).

End ESGScorecard.

(** ** components/ESGScorecard.tsx: the metrics as binary64 numbers

    The same effect as [ESGScorecard.metrics_state], with the numbers of the
    metrics as the engine holds them. *)

Module ESGScorecard64.

Record ESGMetrics := {
  waste_saved_kg : float;
  methane_offset_kg_co2e : float;
  cost_savings_rm : float;
  items_rescued : float;
  waste_reduction_percentage : float;
  compliance_score : float;
  monthly_trend : list Api.MonthlyTrend
}.

(** Legacy support: metrics created from [wasteSavedKg]. *)
Definition legacy_metrics (wasteSavedKg : float) : ESGMetrics := {|
  waste_saved_kg := wasteSavedKg;
  methane_offset_kg_co2e := (wasteSavedKg * 0.918)%float;
  cost_savings_rm := (wasteSavedKg * 15)%float;
  items_rescued := Js64.Math_round (wasteSavedKg * 0.3)%float;
  waste_reduction_percentage := ((wasteSavedKg / 180) * 100)%float;
  compliance_score := 85%float;
  monthly_trend := []
|}.

(** The fallback data set when the request for /esg fails. *)
Definition fallback_metrics : ESGMetrics := {|
  waste_saved_kg := 150%float;
  methane_offset_kg_co2e := 137.7%float;
  cost_savings_rm := 2250%float;
  items_rescued := 42%float;
  waste_reduction_percentage := 83.3%float;
  compliance_score := 85%float;
  monthly_trend := []
|}.

Inductive FetchOutcome :=
| FetchOk (data : ESGMetrics)
| FetchFailed.

Definition given_and_truthy (wasteSavedKg : option float) : bool :=
  match wasteSavedKg with
  | Some w => Js64.truthy w
  | None => false
  end.

(** The [metrics] state once the effect has run. *)
Definition metrics_state (wasteSavedKg : option float)
    (propMetrics : option ESGMetrics) (o : FetchOutcome) : option ESGMetrics :=
  if bool_decide (is_Some propMetrics) || given_and_truthy wasteSavedKg then
    if given_and_truthy wasteSavedKg && negb (bool_decide (is_Some propMetrics))
    then legacy_metrics <$> wasteSavedKg
    else propMetrics
  else
    match o with
    | FetchOk data => Some data
    | FetchFailed => Some fallback_metrics
    end.

(** [metrics.waste_saved_kg * 0.918], the product the methane offset is
    compared with. *)
Definition methane_of_waste (m : ESGMetrics) : float :=
  (waste_saved_kg m * 0.918)%float.

(** The methane offset as printed: [toFixed(2)] on the compact card,
    [toFixed(1)] on the full one. *)
Definition methane_text (compact : bool) (methane : float) : option string :=
  Js64.toFixed (if compact then 2 else 1) methane.

(** "Equivalent to planting ... trees". *)
Definition trees (methane : float) : float :=
  Js64.Math_round (methane / 21)%float.

End ESGScorecard64.

(** ** components/ForecastChart.tsx *)

Module ForecastChart.
Import Api.

Definition maxDemand (f : ForecastResult) : Js.number :=
  Js.Math_max (map Js.Fin (confidence_upper f)).

Record Bar := {
  height : Js.number;
  lowerHeight : Js.number;
  upperHeight : Js.number
}.

Definition percent_of_max (f : ForecastResult) (x : Js.number) : Js.number :=
  Js.mul (Js.div x (maxDemand f)) (Js.Fin 100).

(** One bar per position of [dates], reading the three series at that
    position.  Past the end of a series the read is [undefined] and the
    heights are [NaN]; the tooltip of such a bar calls [toFixed] on
    [undefined], so that the component throws instead of rendering it: the
    bars are those of the component for series as long as [dates]. *)
Definition bars (f : ForecastResult) : list Bar :=
  map (fun i => {|
         height := percent_of_max f (Js.operand (predicted_demand f) i);
         lowerHeight := percent_of_max f (Js.operand (confidence_lower f) i);
         upperHeight := percent_of_max f (Js.operand (confidence_upper f) i)
       |})
      (seq 0 (length (dates f))).


(** *** The forecast shown and the product selector *)

Record State := {
  forecast : option ForecastResult;
  loading : bool;
  selectedForecast : string;
  allForecasts : list ForecastResult
}.

(** The state at mount: [productId || ''] for the selector. *)
Definition initial (productId : option string) (propForecast : option ForecastResult)
    : State := {|
  forecast := propForecast;
  loading := negb (bool_decide (is_Some propForecast));
  selectedForecast := default "" productId;
  allForecasts := []
|}.

(** What [fetchForecasts] observes: the decoded list, or a failure. *)
Inductive FetchOutcome :=
| FetchOk (data : list ForecastResult)
| FetchFailed.

(** [productId ? data.find(f => f.product_id === productId) : data[0]]. *)
Definition pick (productId : option string) (data : list ForecastResult)
    : option ForecastResult :=
  match productId with
  | Some pid =>
      if Js.truthy_string pid
      then List.find (fun f => bool_decide (product_id f = pid)) data
      else head data
  | None => head data
  end.

(** The state once [fetchForecasts] has run (no forecast was passed in). *)
Definition fetched (productId : option string) (o : FetchOutcome) (st : State) : State :=
  match o with
  | FetchOk data =>
      match pick productId data with
      | Some selected =>
          {| forecast := Some selected;
             loading := false;
             selectedForecast := product_id selected;
             allForecasts := data |}
      | None =>
          {| forecast := forecast st;
             loading := false;
             selectedForecast := selectedForecast st;
             allForecasts := data |}
      end
  | FetchFailed =>
      {| forecast := forecast st;
         loading := false;
         selectedForecast := selectedForecast st;
         allForecasts := allForecasts st |}
  end.

Definition handleForecastChange (productId : string) (st : State) : State :=
  match List.find (fun f => bool_decide (product_id f = productId)) (allForecasts st) with
  | Some selected =>
      {| forecast := Some selected;
         loading := loading st;
         selectedForecast := productId;
         allForecasts := allForecasts st |}
  | None => st
  end.

(** *** The summary under the chart *)

(** [predicted_demand.reduce((a, b) => a + b, 0)], as the exact sum, taken
    from the left; the rounding of each addition is left out. *)
Definition total_predicted (f : ForecastResult) : Q :=
  fold_left Qplus (predicted_demand f) 0%Q.

Definition daily_average (f : ForecastResult) : Js.number :=
  Js.div (Js.Fin (total_predicted f))
         (Js.Fin (inject_Z (Z.of_nat (length (predicted_demand f))))).

Definition peak_day (f : ForecastResult) : Js.number :=
  Js.Math_max (map Js.Fin (predicted_demand f)).

(** The dates labelled on the x axis: every third one and the last one. *)
Definition x_axis_labels (f : ForecastResult) : list Z :=
  (filter (fun p : nat * Z =>
             (Z.of_nat (fst p) mod 3 = 0)%Z \/
             Z.of_nat (fst p) = (Z.of_nat (length (dates f)) - 1)%Z)
          (imap pair (dates f))).*2.

(** The [days] prop defaults to 14. *)
Definition days_prop (days : option Z) : Z := default 14%Z days.

(** The request the effect sends when no forecast is passed in. *)
Definition request_days (days : option Z) : Z := days_prop days.

End ForecastChart.

(** ** components/InventoryTable.tsx *)

Module InventoryTable.

Definition ms_per_day : Z := 1000 * 60 * 60 * 24.

(** [Math.ceil(a / b)] for integers [a] and [b > 0]. *)
Definition ceil_div (a b : Z) : Z := (- ((- a) / b))%Z.

(** [today] is local midnight and [expiry] the parsed expiry date, both in
    milliseconds since the epoch. *)
Definition getDaysUntilExpiry (today expiry : Z) : Z :=
  ceil_div (expiry - today) ms_per_day.

Record Status := {
  color : string;
  label : string
}.

Definition getExpiryStatus (days : Z) : Status :=
  if (days <=? 2)%Z then {| color := "text-rose-600 bg-rose-50"; label := "Critical" |}
  else if (days <=? 5)%Z then {| color := "text-amber-600 bg-amber-50"; label := "Warning" |}
  else if (days <=? 10)%Z then {| color := "text-yellow-600 bg-yellow-50"; label := "Monitor" |}
  else {| color := "text-emerald-600 bg-emerald-50"; label := "Good" |}.

(** The text of the expiry cell of a row. *)
Definition expiry_cell (daysToExpiry : Z) : string :=
  if (daysToExpiry <=? 0)%Z then "Expired" else Js.template daysToExpiry +:+ "d".

(** The two counters of the summary line, over the day counts of the items. *)
Definition critical_count (days : list Z) : nat :=
  length (filter (fun d => (d <= 2)%Z) days).

Definition warning_count (days : list Z) : nat :=
  length (filter (fun d => (2 < d)%Z /\ (d <= 5)%Z) days).


Definition getStockStatus (current reorder : Q) : Status :=
  let ratio := Js.div (Js.Fin current) (Js.Fin reorder) in
  if Js.le ratio (Js.Fin 0.5) then {| color := "text-rose-600"; label := "Critical" |}
  else if Js.le ratio (Js.Fin 1) then {| color := "text-amber-600"; label := "Low" |}
  else if Js.le ratio (Js.Fin 2) then {| color := "text-emerald-600"; label := "Good" |}
  else {| color := "text-blue-600"; label := "High" |}.

(** The day count of an item, [today] being local midnight. *)
Definition days_of (today : Z) (item : Api.InventoryItem) : Z :=
  getDaysUntilExpiry today (Api.expiry_date item).

(** The category filter: [None] is the entry "all". *)
Definition filtered (filter_by : option Api.Category) (items : list Api.InventoryItem)
    : list Api.InventoryItem :=
  match filter_by with
  | None => items
  | Some c => List.filter (fun item => bool_decide (Api.item_category item = c)) items
  end.

(** The rows of the table under the default sort key, the expiry: the
    items of the chosen category, soonest expiry first, cut to five rows in
    compact mode. *)
Definition displayItems (today : Z) (filter_by : option Api.Category) (compact : bool)
    (items : list Api.InventoryItem) : list Api.InventoryItem :=
  let sorted := Js.sort_by (days_of today) (filtered filter_by items) in
  if compact then Js.slice0 sorted 5 else sorted.

(** The "View all" button of the compact table. *)
Definition view_all (compact : bool) (items : list Api.InventoryItem) : bool :=
  compact && (5 <? length items)%nat.
End InventoryTable.

(** ** components/SustainabilityAlerts.tsx *)

Module SustainabilityAlerts.
Import Api.

(** The JSON body posted to /alerts/mark-sold. *)
Record MarkSoldBody := {
  alert_id : string;
  body_product_id : string;
  quantity_kg : Q;
  cost_rm : Q
}.

Definition mark_sold_body (alert : SustainabilityAlert) : MarkSoldBody := {|
  alert_id := id alert;
  body_product_id := alert_product_id alert;
  quantity_kg := potential_waste_kg alert;
  cost_rm := potential_loss_rm alert
|}.

(** What [await fetch(...)] yields: an exception, or a response with its
    [ok] flag. *)
Inductive Reply :=
| Threw
| Responded (ok : bool).

Record State := {
  alerts : list SustainabilityAlert;
  soldAlerts : gset string;
  markingId : option string
}.

(** [setMarkingId(alert.id)], before the request is sent. *)
Definition begin_marking (alert : SustainabilityAlert) (st : State) : State := {|
  alerts := alerts st;
  soldAlerts := soldAlerts st;
  markingId := Some (id alert)
|}.

(** The rest of the handler once the request has settled: the set grows only
    under [response.ok]; [finally] clears the marker on every path. *)
Definition settle (alert : SustainabilityAlert) (r : Reply) (st : State) : State := {|
  alerts := alerts st;
  soldAlerts :=
    match r with
    | Responded true => soldAlerts st ∪ {[ id alert ]}
    | Responded false => soldAlerts st
    | Threw => soldAlerts st
    end;
  markingId := None
|}.

Definition handleMarkAsSold (alert : SustainabilityAlert) (r : Reply) (st : State) : State :=
  settle alert r (begin_marking alert st).

Definition alertTypeLabels (t : SustainabilityAlertType) : string :=
  match t with
  | expiry_risk => "Expiry Risk"
  | overstock => "Overstock"
  | slow_moving => "Slow Moving"
  end.

(** The parts of an alert card that depend on the component state. *)
Record Card := {
  badge : string;
  expiry_text : string;
  body : string;
  action : option string;
  button : option string
}.

Definition card (st : State) (alert : SustainabilityAlert) : Card :=
  let isSold := bool_decide (id alert ∈ soldAlerts st) in
  let isMarking := bool_decide (markingId st = Some (id alert)) in
  {| badge := if isSold then "Sold" else alertTypeLabels (alert_type alert);
     expiry_text :=
       if isSold then "Waste Prevented!"
       else if (days_until_expiry alert <=? 0)%Z then "EXPIRED"
       else Js.template (days_until_expiry alert) +:+ " days left";
     body := if isSold then "Item sold - ESG metrics updated" else message alert;
     action := if isSold then None else Some (recommended_action alert);
     button :=
       if isSold then None
       else Some (if isMarking then "Saving..." else "Mark as Sold") |}.

Definition default_maxItems : Z := 5.

Definition displayAlerts (alerts : list SustainabilityAlert) (maxItems : Z)
    : list SustainabilityAlert :=
  Js.slice0 alerts maxItems.

(** Whether the "View all" button is rendered. *)
Definition view_all (alerts : list SustainabilityAlert) (maxItems : Z) : bool :=
  (maxItems <? Z.of_nat (length alerts))%Z.





(** Whether "No sustainability alerts" is rendered in place of the cards. *)
Definition empty_state (alerts : list SustainabilityAlert) (maxItems : Z) : bool :=
  (length (displayAlerts alerts maxItems) =? 0)%nat.

(** A sequence of handler runs, each with the reply its request got. *)
Definition run_handlers (calls : list (SustainabilityAlert * Reply)) (st : State) : State :=
  fold_left (fun st call => handleMarkAsSold (fst call) (snd call) st) calls st.
End SustainabilityAlerts.

(** ** components/PreparationAlerts.tsx *)

Module PreparationAlerts.
Import Api.

Definition default_maxItems : Z := 5.

Definition displayAlerts (alerts : list PreparationAlert) (maxItems : Z)
    : list PreparationAlert :=
  Js.slice0 alerts maxItems.

Definition view_all (alerts : list PreparationAlert) (maxItems : Z) : bool :=
  (maxItems <? Z.of_nat (length alerts))%Z.


Definition empty_state (alerts : list PreparationAlert) (maxItems : Z) : bool :=
  (length (displayAlerts alerts maxItems) =? 0)%nat.
End PreparationAlerts.

(** ** components/FestivalBanner.tsx *)

Module FestivalBanner.
Import Api.

(** [setFestivals(data.slice(0, 2))]. *)
Definition festivals_state (data : list Festival) : list Festival :=
  Js.slice0 data 2.

Record Banner := {
  isUrgent : bool;
  title : string;
  when : string;
  expected_demand : float;
  prepare_now : bool;
  (** the figure in "Expected ...% increase in demand.": absent when the
      festival is not urgent; what [toFixed] prints otherwise *)
  increase_percent : option (option string)
}.

(** [(nextFestival.demand_multiplier - 1) * 100]. *)
Definition increase (f : Festival) : float :=
  ((demand_multiplier f - 1) * 100)%float.

Definition render (loading : bool) (festivals : list Festival) : option Banner :=
  if loading then None
  else
    match festivals with
    | [] => None
    | nextFestival :: _ =>
        let urgent := (days_until nextFestival <=? 14)%Z in
        Some {|
          isUrgent := urgent;
          title := name nextFestival;
          when :=
            if (days_until nextFestival =? 0)%Z then "Today!"
            else if (days_until nextFestival =? 1)%Z then "Tomorrow"
            else "In " +:+ Js.template (days_until nextFestival) +:+ " days";
          expected_demand := demand_multiplier nextFestival;
          prepare_now := urgent;
          increase_percent :=
            if urgent
            then Some (Js64.toFixed 0 (increase nextFestival))
            else None
        |}
    end.

(** What [fetchFestivals] observes. *)
Inductive FetchOutcome :=
| FetchOk (data : list Festival)
| FetchFailed.

(** The [festivals] state once the request has settled; [loading] is false
    from then on. *)
Definition festivals_after (o : FetchOutcome) : list Festival :=
  match o with
  | FetchOk data => festivals_state data
  | FetchFailed => []
  end.

(** What the banner shows once the request has settled. *)
Definition banner_after (o : FetchOutcome) : option Banner :=
  render false (festivals_after o).
End FestivalBanner.

(** ** app/forecasts/page.tsx and app/page.tsx *)

Module ForecastsPage.

(** The entries of the horizon [select]. *)
Inductive DaysOption := opt7 | opt14 | opt30.

Definition option_value (o : DaysOption) : string :=
  match o with
  | opt7 => "7"
  | opt14 => "14"
  | opt30 => "30"
  end.

(** [forecastDays] is a number; [None] stands for [NaN]. *)
Record State := {
  refreshKey : Z;
  forecastDays : option Z
}.

Definition initial : State := {| refreshKey := 0; forecastDays := Some 14%Z |}.

Definition handleRefresh (st : State) : State := {|
  refreshKey := refreshKey st + 1;
  forecastDays := forecastDays st
|}.

(** [value] is [e.target.value]. *)
Definition handleDaysChange (value : string) (st : State) : State := {|
  refreshKey := refreshKey st + 1;
  forecastDays := Js.parseInt value
|}.

Inductive Event :=
| Refresh
| DaysChange (o : DaysOption).

Definition step (st : State) (ev : Event) : State :=
  match ev with
  | Refresh => handleRefresh st
  | DaysChange o => handleDaysChange (option_value o) st
  end.

Definition run (evs : list Event) : State := fold_left step evs initial.

(** The chart is keyed by [refreshKey] and given [days={forecastDays}]; the
    chart mounted in a state requests that many days. *)
Definition chart_request (st : State) : option Z := forecastDays st.

(** Every request of a session: one for the first mount and one for the
    remount after each event. *)
Fixpoint requests_from (st : State) (evs : list Event) : list (option Z) :=
  chart_request st ::
  match evs with
  | [] => []
  | ev :: evs' => requests_from (step st ev) evs'
  end.

Definition requests (evs : list Event) : list (option Z) := requests_from initial evs.


(** The number an entry of the select stands for. *)
Definition option_days (o : DaysOption) : Z :=
  match o with
  | opt7 => 7
  | opt14 => 14
  | opt30 => 30
  end.

(** The entry chosen last in a session, the initial entry if none was. *)
Definition last_choice (evs : list Event) : DaysOption :=
  fold_left (fun o ev => match ev with DaysChange o' => o' | Refresh => o end) evs opt14.
End ForecastsPage.

Module Home.

(** The dashboard mounts the chart without props. *)
Definition chart_request : option Z := Some (ForecastChart.request_days None).

End Home.

(** ** components/AddStockModal.tsx *)

Module AddStockModal.

Record Product := {
  id : string;
  name : string;
  category : string;
  unit : string;
  cost_per_unit : Q;
  shelf_life_days : Z;
  default_supplier : string;
  suggested_expiry : string
}.

(** The form state; the insight is kept as its recommendation text. *)
Record State := {
  products : list Product;
  selectedProduct : string;
  quantity : Z;
  expiryDate : string;
  supplier : string;
  insight : option string;
  submitting : bool
}.

(** [setQuantity(parseInt(e.target.value) || 0)]. *)
Definition quantity_of_input (value : string) : Z :=
  match Js.parseInt value with
  | Some n => n
  | None => 0
  end.

Definition setQuantity (value : string) (st : State) : State := {|
  products := products st;
  selectedProduct := selectedProduct st;
  quantity := quantity_of_input value;
  expiryDate := expiryDate st;
  supplier := supplier st;
  insight := insight st;
  submitting := submitting st
|}.

(** The text the quantity field shows: [quantity || '']. *)
Definition quantity_text (st : State) : string :=
  if (quantity st =? 0)%Z then "" else Js.template (quantity st).

(** Whether the insight effect schedules a request. *)
Definition insight_requested (st : State) : bool :=
  Js.truthy_string (selectedProduct st) && (0 <? quantity st)%Z.

(** What the insight request yields: nothing usable (an exception or a
    response that is not ok), or a decoded insight. *)
Inductive InsightReply :=
| NoInsight
| Insight (recommendation : string).

(** The insight effect, run to completion: a request is made only for a
    chosen product and a positive quantity, and the insight is cleared
    otherwise.  The delay of 500 ms before the request is not modelled. *)
Definition insight_effect (r : InsightReply) (st : State) : State := {|
  products := products st;
  selectedProduct := selectedProduct st;
  quantity := quantity st;
  expiryDate := expiryDate st;
  supplier := supplier st;
  insight :=
    if insight_requested st then
      match r with
      | Insight text => Some text
      | NoInsight => insight st
      end
    else None;
  submitting := submitting st
|}.

Definition handleClose (st : State) : State := {|
  products := products st;
  selectedProduct := "";
  quantity := 0;
  expiryDate := "";
  supplier := "";
  insight := None;
  submitting := submitting st
|}.

(** What the page is told by a submission. *)
Record Signals := {
  onSuccess : bool;
  onClose : bool;
  alerted : bool
}.

(** [handleSubmit], run to completion over the reply of POST
    /inventory/add: [true] is an ok response, [false] a response that is
    not ok or an exception. *)
Definition handleSubmit (ok : bool) (st : State) : State * Signals :=
  if ok then
    (let st' := handleClose st in
     {| products := products st';
        selectedProduct := selectedProduct st';
        quantity := quantity st';
        expiryDate := expiryDate st';
        supplier := supplier st';
        insight := insight st';
        submitting := false |},
     {| onSuccess := true; onClose := true; alerted := false |})
  else
    ({| products := products st;
        selectedProduct := selectedProduct st;
        quantity := quantity st;
        expiryDate := expiryDate st;
        supplier := supplier st;
        insight := insight st;
        submitting := false |},
     {| onSuccess := false; onClose := false; alerted := true |}).

(** The [disabled] attribute of the submit button. *)
Definition submit_disabled (st : State) : bool :=
  submitting st || negb (Js.truthy_string (selectedProduct st))
  || (quantity st =? 0)%Z || negb (Js.truthy_string (expiryDate st)).

End AddStockModal.

(** ** The backend core the client talks to

    The backend (backend/main.py) is not part of the sources at hand; the
    parts of it the properties below depend on are modelled from the
    specification of the Forecast & Alert Engine. *)

Module Forecaster.
Import Api.

Inductive Category := poultry | produce | dairy.

Global Instance Category_eq_dec : EqDecision Category.
Proof. solve_decision. Defined.

Record Product := {
  prod_id : string;
  prod_name : string;
  category : Category
}.

Record CalendarFestival := {
  fest_name : string;
  fest_date : Z;
  fest_categories : list Category;
  fest_multiplier : Q
}.

Inductive Error := InvalidHorizon.

(** Everything a forecast is computed from: the trend estimate of step 1
    (the linear fit: [baseline] is its value today and [slope] its change
    per day), the seasonality model ([dow_ratio] is the bucket average over
    the overall average, per weekday), the calendar and the configuration
    ([k], [window], [payday_boost]). *)
Record Env := {
  today : Z;
  product : Product;
  baseline : Q;
  slope : Q;
  dow_ratio : Z -> Q;
  day_of_month : Z -> Z;
  festivals : list CalendarFestival;
  k : Q;
  window : Z;
  payday_boost : Q
}.

Definition qmax (a b : Q) : Q := if Qle_bool a b then b else a.
Definition qmin (a b : Q) : Q := if Qle_bool a b then a else b.
Definition clamp (lo hi x : Q) : Q := qmax lo (qmin hi x).

(** Modelled from the spec: "horizon_days ∈ {7, 14, 30} (reject other values
    with InvalidHorizon)". *)
Definition supported (h : Z) : bool :=
  (h =? 7)%Z || (h =? 14)%Z || (h =? 30)%Z.

(** Modelled from the spec: "dates are the next horizon_days consecutive
    calendar days from today". *)
Definition horizon_dates (e : Env) (h : nat) : list Z :=
  map (fun i => (today e + 1 + Z.of_nat i)%Z) (seq 0 h).

(** Modelled from the spec: the day-of-week multiplier, "clamped to a sane
    range (e.g. [0.5, 3.0])". *)
Definition dow_multiplier (e : Env) (d : Z) : Q :=
  clamp 0.5 3 (dow_ratio e (d mod 7)%Z).

(** Modelled from the spec: the payday multiplier, "elevated for days 25–31
    and 1–5, baseline otherwise". *)
Definition payday_multiplier (e : Env) (d : Z) : Q :=
  let m := day_of_month e d in
  if ((25 <=? m)%Z && (m <=? 31)%Z) || ((1 <=? m)%Z && (m <=? 5)%Z)
  then 1 + payday_boost e
  else 1.

(** Modelled from the spec, step 1: the linear fit gives "a per-day baseline
    demand and a slope"; the baseline demand of the day [d] is the value of
    the fit on that day. *)
Definition baseline_at (e : Env) (d : Z) : Q :=
  baseline e + slope e * inject_Z (d - today e).

(** Modelled from the spec, step 2: "baseline × day-of-week multiplier ×
    payday multiplier = unadjusted prediction". *)
Definition unadjusted (e : Env) (d : Z) : Q :=
  baseline_at e d * dow_multiplier e d * payday_multiplier e d.

(** Modelled from the spec, step 3: a festival applies when its date falls
    within the horizon and the product's category is impacted. *)
Definition overlaps (e : Env) (h : nat) (f : CalendarFestival) : bool :=
  (today e <? fest_date f)%Z && (fest_date f <=? today e + Z.of_nat h)%Z
  && bool_decide (category (product e) ∈ fest_categories f).

(** The soonest of the given festivals, the earlier entry winning a tie. *)
Fixpoint soonest (fs : list CalendarFestival) : option CalendarFestival :=
  match fs with
  | [] => None
  | f :: fs' =>
      match soonest fs' with
      | Some g => if (fest_date f <=? fest_date g)%Z then Some f else Some g
      | None => Some f
      end
  end.

Definition overlay (e : Env) (h : nat) : option CalendarFestival :=
  soonest (filter (fun f => overlaps e h f = true) (festivals e)).

(** Modelled from the spec, step 3: the uplift of a day, the festival's
    multiplier at the peak, "tapering linearly" to no uplift outside the
    window around it. *)
Definition uplift (e : Env) (f : CalendarFestival) (d : Z) : Q :=
  let dist := Z.abs (d - fest_date f) in
  if (dist <=? window e)%Z
  then 1 + (fest_multiplier f - 1) * (1 - inject_Z dist / inject_Z (window e + 1))
  else 1.

Definition predicted (e : Env) (h : nat) (d : Z) : Q :=
  match overlay e h with
  | Some f => unadjusted e d * uplift e f d
  | None => unadjusted e d
  end.

(** Modelled from the spec, step 4: the square root of the band, here to
    three decimals, rounded down. *)
Definition sqrtQ (x : Q) : Q :=
  inject_Z (Z.sqrt (Qfloor (x * 1000000))) / 1000.

(** Modelled from the spec, step 4: "bound(i) = predicted(i) × k ×
    sqrt(i+1) ..., applied symmetrically; confidence_lower is floored
    at 0". *)
Definition bound (e : Env) (i : nat) (p : Q) : Q :=
  p * k e * sqrtQ (inject_Z (Z.of_nat i + 1)).

Definition lower_at (e : Env) (i : nat) (p : Q) : Q := qmax 0 (p - bound e i p).
Definition upper_at (e : Env) (i : nat) (p : Q) : Q := p + bound e i p.

Definition sumQ (xs : list Q) : Q := fold_right Qplus 0%Q xs.
Definition mean (xs : list Q) : Q := sumQ xs / inject_Z (Z.of_nat (length xs)).

(** Modelled from the spec, step 5: the means of the first and of the last
    three predicted days are compared. *)
Definition classify (ps : list Q) : Trend :=
  let first := mean (take 3 ps) in
  let last := mean (drop (length ps - 3) ps) in
  if negb (Qle_bool last (first * 1.1)) then increasing
  else if negb (Qle_bool (first * 0.9) last) then decreasing
  else stable.

Definition build (e : Env) (h : nat) : ForecastResult :=
  let ds := horizon_dates e h in
  let ps := map (predicted e h) ds in
  {| product_id := prod_id (product e);
     product_name := prod_name (product e);
     dates := ds;
     predicted_demand := ps;
     confidence_lower := imap (lower_at e) ps;
     confidence_upper := imap (upper_at e) ps;
     trend := classify ps;
     festive_impact := fest_name <$> overlay e h |}.

(** Modelled from the spec: the contract of section 4.2,
    [forecast(product, horizon_days)]. *)
Definition forecast (e : Env) (horizon_days : Z) : Error + ForecastResult :=
  if supported horizon_days then inr (build e (Z.to_nat horizon_days))
  else inl InvalidHorizon.

(** Inputs on which no predicted demand is negative: the fitted demand is
    non-negative today and does not fall, a festival multiplies demand by at
    least one, and the payday cycle does not make demand negative. *)
Record steady (e : Env) : Prop := {
  baseline_nonneg : (0 <= baseline e)%Q;
  slope_nonneg : (0 <= slope e)%Q;
  window_nonneg : (0 <= window e)%Z;
  payday_boost_ok : (-1 <= payday_boost e)%Q;
  festival_multiplier_ok : Forall (fun f => (1 <= fest_multiplier f)%Q) (festivals e)
}.

End Forecaster.

Module Ledger.
Import Api.

Record LedgerEvent := {
  ev_alert_id : string;
  ev_product_id : string;
  ev_quantity_kg : Q;
  ev_cost_recovered : Q;
  ev_timestamp : Z
}.

Inductive Error := InvalidQuantity.

(** Modelled from the spec: [recordRescue] of section 4.4 "appends a
    LedgerEvent; fails with InvalidQuantity if quantityKg ≤ 0".  The alert
    the event resolves is recorded with it, as in the data model. *)
Definition recordRescue (alertId productId : string) (quantityKg costRecovered : Q)
    (timestamp : Z) (log : list LedgerEvent) : Error + list LedgerEvent :=
  if Qle_bool quantityKg 0 then inl InvalidQuantity
  else inr (log ++ [{| ev_alert_id := alertId;
                       ev_product_id := productId;
                       ev_quantity_kg := quantityKg;
                       ev_cost_recovered := costRecovered;
                       ev_timestamp := timestamp |}]).

(** Modelled from the spec: [markSold(alertId, productId, quantityKg,
    costRecovered)], the binding of POST /alerts/mark-sold, "appends a
    LedgerEvent". *)
Definition markSold (b : SustainabilityAlerts.MarkSoldBody) (timestamp : Z)
    (log : list LedgerEvent) : Error + list LedgerEvent :=
  recordRescue (SustainabilityAlerts.alert_id b) (SustainabilityAlerts.body_product_id b)
    (SustainabilityAlerts.quantity_kg b) (SustainabilityAlerts.cost_rm b) timestamp log.

End Ledger.

(** ** The client and the ledger together: one click on "Mark as Sold" *)

Module MarkSold.
Import Api.

Record World := {
  client : SustainabilityAlerts.State;
  ledger : list Ledger.LedgerEvent
}.

(** How a request fares: it is lost before the server sees it, or it is
    served, and then the response reaches the client or not. *)
Inductive Delivery :=
| Lost
| Served (response_arrives : bool).

(** The server side of POST /alerts/mark-sold: the response is ok exactly
    when the event was appended. *)
Definition serve (b : SustainabilityAlerts.MarkSoldBody) (timestamp : Z)
    (log : list Ledger.LedgerEvent) : bool * list Ledger.LedgerEvent :=
  match Ledger.markSold b timestamp log with
  | inr log' => (true, log')
  | inl _ => (false, log)
  end.

Definition click (alert : SustainabilityAlert) (d : Delivery) (timestamp : Z)
    (w : World) : World :=
  match d with
  | Lost =>
      {| client := SustainabilityAlerts.handleMarkAsSold alert SustainabilityAlerts.Threw (client w);
         ledger := ledger w |}
  | Served response_arrives =>
      let '(ok, log') := serve (SustainabilityAlerts.mark_sold_body alert) timestamp (ledger w) in
      {| client :=
           SustainabilityAlerts.handleMarkAsSold alert
             (if response_arrives then SustainabilityAlerts.Responded ok
              else SustainabilityAlerts.Threw)
             (client w);
         ledger := log' |}
  end.

Record Click := {
  clicked : SustainabilityAlert;
  delivery : Delivery;
  at_time : Z
}.

Definition run (w : World) (cs : list Click) : World :=
  fold_left (fun w c => click (clicked c) (delivery c) (at_time c) w) cs w.

(** The panel as first rendered over a ledger. *)
Definition start (alerts : list SustainabilityAlert) (log : list Ledger.LedgerEvent) : World := {|
  client := {| SustainabilityAlerts.alerts := alerts;
               SustainabilityAlerts.soldAlerts := ∅;
               SustainabilityAlerts.markingId := None |};
  ledger := log
|}.

(** A ledger event that matches an alert. *)
Definition matches (ev : Ledger.LedgerEvent) (alert : SustainabilityAlert) : Prop :=
  Ledger.ev_alert_id ev = id alert /\
  Ledger.ev_quantity_kg ev = potential_waste_kg alert /\
  Ledger.ev_cost_recovered ev = potential_loss_rm alert.

End MarkSold.

(** ** Sample data *)

Module Samples.
Import Api.

Definition alert (i : string) (days : Z) : SustainabilityAlert := {|
  id := i;
  alert_product_id := "P1";
  alert_product_name := "Whole Chicken";
  alert_type := expiry_risk;
  severity := high;
  message := "Expiring stock";
  recommended_action := "Discount by 30%";
  days_until_expiry := days;
  potential_waste_kg := 10;
  potential_loss_rm := 150;
  created_at := "2026-01-01"
|}.

Definition expired_alert : SustainabilityAlert := alert "A1" 0.

Definition three_alerts : list SustainabilityAlert :=
  [alert "A1" 0; alert "A2" 1; alert "A3" 4].

Definition panel (sold : gset string) : SustainabilityAlerts.State := {|
  SustainabilityAlerts.alerts := [expired_alert];
  SustainabilityAlerts.soldAlerts := sold;
  SustainabilityAlerts.markingId := None
|}.

Definition festival (multiplier : float) (days : Z) : Festival := {|
  name := "Deepavali";
  date := 20768;
  impact_categories := ["produce"; "dairy"];
  demand_multiplier := multiplier;
  days_until := days
|}.

(** A product whose fitted demand is [base] today and changes by [trend]
    per day. *)
Definition trend_env (base trend : Q) : Forecaster.Env := {|
  Forecaster.today := 20700;
  Forecaster.product := {| Forecaster.prod_id := "P1";
                           Forecaster.prod_name := "Whole Chicken";
                           Forecaster.category := Forecaster.poultry |};
  Forecaster.baseline := base;
  Forecaster.slope := trend;
  Forecaster.dow_ratio := fun d => (if (d =? 6)%Z then 1.2 else 1)%Q;
  Forecaster.day_of_month := fun d => (d mod 30 + 1)%Z;
  Forecaster.festivals :=
    [{| Forecaster.fest_name := "Chinese New Year";
        Forecaster.fest_date := 20704;
        Forecaster.fest_categories := [Forecaster.poultry; Forecaster.produce];
        Forecaster.fest_multiplier := 2.5 |}];
  Forecaster.k := 0.15;
  Forecaster.window := 3;
  Forecaster.payday_boost := 0.3
|}.

Definition env (base : Q) : Forecaster.Env := trend_env base 0.

(** Demand of 10 today, falling by one unit per day. *)
Definition declining_env : Forecaster.Env := trend_env 10 (-1).

(** A forecast of no demand over two days. *)
Definition flat_forecast : ForecastResult := {|
  product_id := "P1";
  product_name := "Whole Chicken";
  dates := [20701; 20702]%Z;
  predicted_demand := [0; 0]%Q;
  confidence_lower := [0; 0]%Q;
  confidence_upper := [0; 0]%Q;
  trend := stable;
  festive_impact := None
|}.

(** The forecast the forecaster computes for a product nobody buys. *)
Definition idle_forecast : ForecastResult := Forecaster.build (env 0) 7.

Definition busy_forecast : ForecastResult := Forecaster.build (env 10) 7.

Definition metrics_with_trend (trend : list MonthlyTrend) : ESGMetrics := {|
  waste_saved_kg := 150;
  methane_offset_kg_co2e := 137.7;
  cost_savings_rm := 2250;
  items_rescued := 42;
  waste_reduction_percentage := 83.3;
  compliance_score := 85;
  monthly_trend := trend
|}.


Definition usual_months : list MonthlyTrend :=
  [{| month := "Jan 2026"; waste_kg := 12; saved_kg := 30 |};
   {| month := "Feb 2026"; waste_kg := 8; saved_kg := 40 |}].

Definition sold_click : MarkSold.Click := {|
  MarkSold.clicked := expired_alert;
  MarkSold.delivery := MarkSold.Served true;
  MarkSold.at_time := 1767225600
|}.

End Samples.

(** * Properties *)

(** ** The primitives on concrete inputs *)

Example toFixed0_tie :
  Js64.toFixed 0 12.5 = Some "13".
Proof. vm_compute. reflexivity. Qed.

Example toFixed0_below_half :
  Js64.toFixed 0 0.4 = Some "0".
Proof. vm_compute. reflexivity. Qed.

Example toFixed0_negative :
  Js64.toFixed 0 (-2.5) = Some "-3".
Proof. vm_compute. reflexivity. Qed.

(** 28.5 is not a binary64 number: [(1.285 - 1) * 100] evaluates to a number
    just below it. *)
Example toFixed0_below_tie :
  Js64.toFixed 0 ((1.285 - 1) * 100) = Some "28".
Proof. vm_compute. reflexivity. Qed.

Example toFixed2_pads :
  Js64.toFixed 2 0.005 = Some "0.01" /\ Js64.toFixed 1 (-0.04) = Some "-0.0".
Proof. split; vm_compute; reflexivity. Qed.

Example toFixed0_exponent_form :
  Js64.toFixed 0 1e21 = None.
Proof. vm_compute. reflexivity. Qed.

Example product_is_rounded :
  Js64.strict_eq (150 * 0.918) 137.7 = false /\
  Js64.strict_eq (150 * 0.918) 137.70000000000002 = true.
Proof. split; vm_compute; reflexivity. Qed.

Example Math_round_ties :
  Js64.Math_round 2.5 = 3%float /\ Js64.Math_round (-2.5) = (-2)%float.
Proof. split; vm_compute; reflexivity. Qed.

Example template_negative : Js.template (-3) = "-3".
Proof. reflexivity. Qed.

Example parseInt_option : Js.parseInt "30" = Some 30%Z.
Proof. reflexivity. Qed.

Example parseInt_no_digit : Js.parseInt "days" = None.
Proof. reflexivity. Qed.

Example slice0_short : Js.slice0 [1; 2; 3] 5 = [1; 2; 3].
Proof. reflexivity. Qed.

Example slice0_from_back : Js.slice0 [1; 2; 3] (-2) = [1].
Proof. reflexivity. Qed.

Example zero_by_zero : Js.div (Js.Fin 0) (Js.Fin 0) = Js.NaN.
Proof. reflexivity. Qed.

Example positive_by_zero : Js.div (Js.Fin 5) (Js.Fin 0) = Js.PosInf.
Proof. reflexivity. Qed.

Example max_of_nothing : Js.Math_max [] = Js.NegInf.
Proof. reflexivity. Qed.

Example days_until_tomorrow_noon :
  InventoryTable.getDaysUntilExpiry 0 (InventoryTable.ms_per_day + 43200000) = 2%Z.
Proof. reflexivity. Qed.

Example days_until_earlier_today :
  InventoryTable.getDaysUntilExpiry 43200000 0 = 0%Z.
Proof. reflexivity. Qed.

Example forecast_rejects_other_horizon :
  Forecaster.forecast (Samples.env 10) 8 = inl Forecaster.InvalidHorizon.
Proof. reflexivity. Qed.

Example forecast_names_festival :
  Api.festive_impact Samples.busy_forecast = Some "Chinese New Year".
Proof. reflexivity. Qed.

(** Case analysis on every integer comparison of the goal. *)
Ltac by_thresholds :=
  repeat match goal with
         | |- context [(?a <=? ?b)%Z] => destruct (Z.leb_spec a b)
         end;
  try lia; auto.

(** ** Printing integers *)

(** A printed integer starts with a digit or a minus sign, so with neither
    of the letters E and W. *)
Lemma template_head (z : Z) :
  exists c s, Js.template z = String c s /\ c <> "E"%char /\ c <> "W"%char.
Proof.
  unfold Js.template, NilZero.string_of_int.
  destruct (Z.to_int z) as [u | u]; simpl.
  - unfold NilZero.string_of_uint. destruct u;
      try (eexists _, _; split; [reflexivity | split; discriminate]).
  - eexists _, _; split; [reflexivity | split; discriminate].
Qed.

Lemma template_append_not_Expired (z : Z) (suffix : string) :
  Js.template z +:+ suffix <> "Expired".
Proof.
  destruct (template_head z) as (c & s & Hz & Hc & _).
  rewrite Hz. simpl. intros H. injection H as Hc' _. congruence.
Qed.

Lemma template_append_not_EXPIRED (z : Z) (suffix : string) :
  Js.template z +:+ suffix <> "EXPIRED".
Proof.
  destruct (template_head z) as (c & s & Hz & Hc & _).
  rewrite Hz. simpl. intros H. injection H as Hc' _. congruence.
Qed.

Lemma template_append_not_prevented (z : Z) (suffix : string) :
  Js.template z +:+ suffix <> "Waste Prevented!".
Proof.
  destruct (template_head z) as (c & s & Hz & _ & Hc).
  rewrite Hz. simpl. intros H. injection H as Hc' _. congruence.
Qed.

(** ** InventoryTable: expiry status and expiry cell *)

Lemma getExpiryStatus_critical (days : Z) :
  (days <= 2)%Z -> InventoryTable.label (InventoryTable.getExpiryStatus days) = "Critical".
Proof.
  intros H. unfold InventoryTable.getExpiryStatus. by_thresholds.
Qed.

Lemma getExpiryStatus_warning (days : Z) :
  (3 <= days <= 5)%Z -> InventoryTable.label (InventoryTable.getExpiryStatus days) = "Warning".
Proof.
  intros H. unfold InventoryTable.getExpiryStatus. by_thresholds.
Qed.

Lemma getExpiryStatus_outside (days : Z) :
  (5 < days)%Z ->
  InventoryTable.label (InventoryTable.getExpiryStatus days) = "Monitor" \/
  InventoryTable.label (InventoryTable.getExpiryStatus days) = "Good".
Proof.
  intros H. unfold InventoryTable.getExpiryStatus. by_thresholds.
Qed.

(** C7.  The expiry classification of a lot follows the thresholds: two days
    or fewer is Critical (the highest level), three to five days is Warning
    (the medium level), and a lot is in one of these two levels exactly when
    it has at most five days left, so only values above five fall outside
    the expiry-risk band. *)
Theorem expiry_status_thresholds (days : Z) :
  ((days <= 2)%Z -> InventoryTable.label (InventoryTable.getExpiryStatus days) = "Critical") /\
  ((3 <= days <= 5)%Z -> InventoryTable.label (InventoryTable.getExpiryStatus days) = "Warning") /\
  ((InventoryTable.label (InventoryTable.getExpiryStatus days) = "Critical" \/
    InventoryTable.label (InventoryTable.getExpiryStatus days) = "Warning") <-> (days <= 5)%Z).
Proof.
  split; [apply getExpiryStatus_critical |].
  split; [apply getExpiryStatus_warning |].
  split.
  - intros Hband. destruct (Z.le_gt_cases days 5) as [Hle | Hgt]; [exact Hle |].
    destruct (getExpiryStatus_outside days) as [Hm | Hg]; [lia | |];
      destruct Hband as [Hb | Hb]; congruence.
  - intros Hle. destruct (Z.le_gt_cases days 2) as [H2 | H2].
    + left. apply getExpiryStatus_critical, H2.
    + right. apply getExpiryStatus_warning. lia.
Qed.

(** X22.  The two counters of the summary line count exactly the items
    whose row is labelled Critical, respectively Warning. *)
Lemma summary_counts_follow_labels (days : list Z) :
  InventoryTable.critical_count days =
    length (filter (fun d => InventoryTable.label (InventoryTable.getExpiryStatus d) = "Critical") days) /\
  InventoryTable.warning_count days =
    length (filter (fun d => InventoryTable.label (InventoryTable.getExpiryStatus d) = "Warning") days).
Proof.
  unfold InventoryTable.critical_count, InventoryTable.warning_count.
  induction days as [| d days [IHc IHw]]; [split; reflexivity |].
  rewrite !filter_cons. split.
  - destruct (decide (d <= 2)%Z) as [Hd | Hd].
    + rewrite decide_True by (apply getExpiryStatus_critical, Hd). simpl. congruence.
    + rewrite decide_False; [exact IHc |].
      unfold InventoryTable.getExpiryStatus. by_thresholds; discriminate.
  - destruct (decide ((2 < d)%Z /\ (d <= 5)%Z)) as [Hd | Hd].
    + rewrite decide_True by (apply getExpiryStatus_warning; lia). simpl. congruence.
    + rewrite decide_False; [exact IHw |].
      unfold InventoryTable.getExpiryStatus. by_thresholds; discriminate.
Qed.

Lemma expiry_status_thresholds_witness :
  InventoryTable.label (InventoryTable.getExpiryStatus 2) = "Critical" /\
  InventoryTable.label (InventoryTable.getExpiryStatus 4) = "Warning".
Proof.
  destruct (expiry_status_thresholds 2) as (Hcritical & _).
  destruct (expiry_status_thresholds 4) as (_ & Hwarning & _).
  split; [apply Hcritical | apply Hwarning]; lia.
Defined.

Lemma expiry_cell_expired (days : Z) :
  (days <= 0)%Z -> InventoryTable.expiry_cell days = "Expired".
Proof.
  intros H. unfold InventoryTable.expiry_cell. by_thresholds.
Qed.

Lemma expiry_cell_count (days : Z) :
  (0 < days)%Z -> InventoryTable.expiry_cell days = Js.template days +:+ "d".
Proof.
  intros H. unfold InventoryTable.expiry_cell. by_thresholds.
Qed.

Lemma card_unsold_expiry (st : SustainabilityAlerts.State) (alert : Api.SustainabilityAlert) :
  Api.id alert ∉ SustainabilityAlerts.soldAlerts st ->
  SustainabilityAlerts.expiry_text (SustainabilityAlerts.card st alert) =
    if (Api.days_until_expiry alert <=? 0)%Z then "EXPIRED"
    else Js.template (Api.days_until_expiry alert) +:+ " days left".
Proof.
  intros Hns. unfold SustainabilityAlerts.card. simpl.
  rewrite bool_decide_eq_false_2 by exact Hns. reflexivity.
Qed.

Lemma card_sold_expiry (st : SustainabilityAlerts.State) (alert : Api.SustainabilityAlert) :
  Api.id alert ∈ SustainabilityAlerts.soldAlerts st ->
  SustainabilityAlerts.expiry_text (SustainabilityAlerts.card st alert) = "Waste Prevented!".
Proof.
  intros Hs. unfold SustainabilityAlerts.card. simpl.
  rewrite bool_decide_eq_true_2 by exact Hs. reflexivity.
Qed.

(** C4, amended.  A lot with no day left (zero included) has the cell text
    Expired, and an alert that is not marked as sold with no day left has the
    text EXPIRED; an alert marked as sold shows Waste Prevented! whatever its
    day count; and a day count is shown, in the table and on a card, only
    when the days left are positive. *)
Theorem expiry_reported_as_expired (days : Z) (st : SustainabilityAlerts.State)
    (alert : Api.SustainabilityAlert) :
  ((days <= 0)%Z -> InventoryTable.expiry_cell days = "Expired") /\
  ((0 < days)%Z -> InventoryTable.expiry_cell days = Js.template days +:+ "d") /\
  (forall n suffix, InventoryTable.expiry_cell days = Js.template n +:+ suffix -> (0 < days)%Z) /\
  (Api.id alert ∉ SustainabilityAlerts.soldAlerts st ->
   (Api.days_until_expiry alert <= 0)%Z ->
   SustainabilityAlerts.expiry_text (SustainabilityAlerts.card st alert) = "EXPIRED") /\
  (Api.id alert ∉ SustainabilityAlerts.soldAlerts st ->
   (0 < Api.days_until_expiry alert)%Z ->
   SustainabilityAlerts.expiry_text (SustainabilityAlerts.card st alert) =
     Js.template (Api.days_until_expiry alert) +:+ " days left") /\
  (Api.id alert ∈ SustainabilityAlerts.soldAlerts st ->
   SustainabilityAlerts.expiry_text (SustainabilityAlerts.card st alert) = "Waste Prevented!") /\
  (forall n suffix,
     SustainabilityAlerts.expiry_text (SustainabilityAlerts.card st alert) = Js.template n +:+ suffix ->
     (0 < Api.days_until_expiry alert)%Z).
Proof.
  repeat split.
  - apply expiry_cell_expired.
  - apply expiry_cell_count.
  - intros n suffix Hcell. destruct (Z.le_gt_cases days 0) as [Hle | Hgt]; [| exact Hgt].
    rewrite expiry_cell_expired in Hcell by exact Hle.
    symmetry in Hcell. now apply template_append_not_Expired in Hcell.
  - intros Hns Hle. rewrite card_unsold_expiry by exact Hns.
    destruct (Z.leb_spec (Api.days_until_expiry alert) 0); [reflexivity | lia].
  - intros Hns Hgt. rewrite card_unsold_expiry by exact Hns.
    destruct (Z.leb_spec (Api.days_until_expiry alert) 0); [lia | reflexivity].
  - apply card_sold_expiry.
  - intros n suffix Htext.
    destruct (decide (Api.id alert ∈ SustainabilityAlerts.soldAlerts st)) as [Hs | Hns].
    + rewrite card_sold_expiry in Htext by exact Hs.
      symmetry in Htext. now apply template_append_not_prevented in Htext.
    + rewrite card_unsold_expiry in Htext by exact Hns.
      destruct (Z.leb_spec (Api.days_until_expiry alert) 0) as [Hle | Hgt]; [| exact Hgt].
      symmetry in Htext. now apply template_append_not_EXPIRED in Htext.
Qed.

(** C4, as stated, fails on an alert that is marked as sold: with zero days
    left its card reads Waste Prevented!, not EXPIRED. *)
Lemma sold_alert_not_reported_expired :
  (Api.days_until_expiry Samples.expired_alert <= 0)%Z /\
  SustainabilityAlerts.expiry_text
    (SustainabilityAlerts.card (Samples.panel {[ "A1" ]}) Samples.expired_alert)
  = "Waste Prevented!" /\
  SustainabilityAlerts.expiry_text
    (SustainabilityAlerts.card (Samples.panel {[ "A1" ]}) Samples.expired_alert)
  <> "EXPIRED".
Proof.
  assert (Hs : Api.id Samples.expired_alert ∈
               SustainabilityAlerts.soldAlerts (Samples.panel {[ "A1" ]})).
  { simpl. apply elem_of_singleton. reflexivity. }
  rewrite (card_sold_expiry _ _ Hs).
  split; [simpl; lia | split; [reflexivity | discriminate]].
Qed.

Lemma expiry_reported_as_expired_witness :
  InventoryTable.expiry_cell 0 = "Expired" /\
  SustainabilityAlerts.expiry_text
    (SustainabilityAlerts.card (Samples.panel ∅) Samples.expired_alert) = "EXPIRED".
Proof.
  destruct (expiry_reported_as_expired 0 (Samples.panel ∅) Samples.expired_alert)
    as (Hcell & _ & _ & Hcard & _).
  split.
  - apply Hcell. lia.
  - apply Hcard.
    + simpl. apply not_elem_of_empty.
    + simpl. lia.
Defined.

(** ** Forecast horizons requested by the client *)

Lemma option_value_parses (o : ForecastsPage.DaysOption) :
  Js.parseInt (ForecastsPage.option_value o) = Some 7%Z \/
  Js.parseInt (ForecastsPage.option_value o) = Some 14%Z \/
  Js.parseInt (ForecastsPage.option_value o) = Some 30%Z.
Proof. destruct o; vm_compute; auto. Qed.

Lemma step_keeps_horizon (st : ForecastsPage.State) (ev : ForecastsPage.Event) :
  (ForecastsPage.forecastDays st = Some 7%Z \/
   ForecastsPage.forecastDays st = Some 14%Z \/
   ForecastsPage.forecastDays st = Some 30%Z) ->
  ForecastsPage.forecastDays (ForecastsPage.step st ev) = Some 7%Z \/
  ForecastsPage.forecastDays (ForecastsPage.step st ev) = Some 14%Z \/
  ForecastsPage.forecastDays (ForecastsPage.step st ev) = Some 30%Z.
Proof.
  intros Hst. destruct ev as [| o]; simpl.
  - exact Hst.
  - apply option_value_parses.
Qed.

Lemma supported_never_rejected (e : Forecaster.Env) (h : Z) :
  Forecaster.supported h = true ->
  Forecaster.forecast e h = inr (Forecaster.build e (Z.to_nat h)).
Proof. intros Hs. unfold Forecaster.forecast. rewrite Hs. reflexivity. Qed.

Lemma requests_from_supported (evs : list ForecastsPage.Event) :
  forall st,
    (ForecastsPage.forecastDays st = Some 7%Z \/
     ForecastsPage.forecastDays st = Some 14%Z \/
     ForecastsPage.forecastDays st = Some 30%Z) ->
    Forall (fun r => exists h, r = Some h /\ (h = 7 \/ h = 14 \/ h = 30)%Z)
           (ForecastsPage.requests_from st evs).
Proof.
  induction evs as [| ev evs IH]; intros st Hst; simpl.
  - constructor; [| constructor].
    unfold ForecastsPage.chart_request.
    destruct Hst as [H | [H | H]]; rewrite H; eexists; split; eauto.
  - constructor.
    + unfold ForecastsPage.chart_request.
      destruct Hst as [H | [H | H]]; rewrite H; eexists; split; eauto.
    + apply IH, step_keeps_horizon, Hst.
Qed.

(** C8.  Every forecast request of the client asks for 7, 14 or 30 days: the
    chart, the forecasts page and the API helpers default to 14, the
    dashboard mounts the chart with that default, and whatever sequence of
    refreshes and horizon choices the user makes on the forecasts page, each
    request carries one of the three supported values, which the forecaster
    does not reject with InvalidHorizon. *)
Theorem client_horizons_supported (evs : list ForecastsPage.Event) :
  ForecastChart.days_prop None = 14%Z /\
  Api.getForecast_days None = 14%Z /\
  Api.getAllForecasts_days None = 14%Z /\
  ForecastsPage.forecastDays ForecastsPage.initial = Some 14%Z /\
  Forall (fun r => exists h,
            r = Some h /\ (h = 7 \/ h = 14 \/ h = 30)%Z /\
            forall e, Forecaster.forecast e h <> inl Forecaster.InvalidHorizon)
         (Home.chart_request :: ForecastsPage.requests evs).
Proof.
  repeat (split; [reflexivity |]).
  assert (Hok : forall h, (h = 7 \/ h = 14 \/ h = 30)%Z ->
                forall e, Forecaster.forecast e h <> inl Forecaster.InvalidHorizon).
  { intros h Hh e. rewrite supported_never_rejected; [discriminate |].
    destruct Hh as [-> | [-> | ->]]; reflexivity. }
  constructor.
  - exists 14%Z. split; [reflexivity |]. split; [auto |]. apply Hok. auto.
  - pose proof (requests_from_supported evs ForecastsPage.initial) as Hreq.
    eapply Forall_impl; [apply Hreq; simpl; auto |].
    intros r (h & Hr & Hh). exists h. auto.
Qed.

(** ** The alert panels: how many alerts are shown *)

Lemma slice0_nonneg {A} (xs : list A) (e : Z) :
  (0 <= e)%Z -> Js.slice0 xs e = take (Z.to_nat (Z.min e (Z.of_nat (length xs)))) xs.
Proof.
  intros He. unfold Js.slice0.
  destruct (Z.ltb_spec e 0); [lia | reflexivity].
Qed.

Lemma slice0_negative {A} (xs : list A) (e : Z) :
  (e < 0)%Z -> Js.slice0 xs e = take (Z.to_nat (Z.of_nat (length xs) + e)) xs.
Proof.
  intros He. unfold Js.slice0.
  destruct (Z.ltb_spec e 0); [| lia].
  f_equal. lia.
Qed.

(** C10.  For every alert list and every limit (a count of alerts: the
    pages pass 4 and 10, and the default is 5), both panels show exactly the
    first min(limit, length) alerts in their original order; and the View
    all control is rendered exactly when the list holds strictly more alerts
    than the limit. *)
Theorem alert_panels_limit (sa : list Api.SustainabilityAlert)
    (pa : list Api.PreparationAlert) (maxItems : Z) :
  ((0 <= maxItems)%Z ->
   SustainabilityAlerts.displayAlerts sa maxItems =
     take (Z.to_nat (Z.min maxItems (Z.of_nat (length sa)))) sa /\
   PreparationAlerts.displayAlerts pa maxItems =
     take (Z.to_nat (Z.min maxItems (Z.of_nat (length pa)))) pa) /\
  (SustainabilityAlerts.view_all sa maxItems = true <-> (maxItems < Z.of_nat (length sa))%Z) /\
  (PreparationAlerts.view_all pa maxItems = true <-> (maxItems < Z.of_nat (length pa))%Z).
Proof.
  split; [| split].
  - intros Hm. split; apply slice0_nonneg, Hm.
  - unfold SustainabilityAlerts.view_all. apply Z.ltb_lt.
  - unfold PreparationAlerts.view_all. apply Z.ltb_lt.
Qed.

Lemma alert_panels_limit_witness :
  SustainabilityAlerts.displayAlerts Samples.three_alerts 2 =
    [Samples.alert "A1" 0; Samples.alert "A2" 1] /\
  SustainabilityAlerts.view_all Samples.three_alerts 2 = true.
Proof.
  destruct (alert_panels_limit Samples.three_alerts [] 2) as (Hshow & Hview & _).
  split.
  - destruct Hshow as [Hs _]; [lia |]. rewrite Hs. reflexivity.
  - apply Hview. simpl. lia.
Defined.

(** ** FestivalBanner: urgency and the displayed increase *)

Lemma half_up_nearest (x : Q) :
  (inject_Z (Qfloor (x + (1 # 2))) - (1 # 2) <= x)%Q /\
  (x < inject_Z (Qfloor (x + (1 # 2))) + (1 # 2))%Q.
Proof.
  pose proof (Qfloor_le (x + (1 # 2))) as Hlo.
  pose proof (Qlt_floor (x + (1 # 2))) as Hhi.
  rewrite inject_Z_plus in Hhi.
  change (inject_Z 1) with 1%Q in Hhi.
  split; lra.
Qed.

Lemma pad_template (z : Z) : Js64.pad 1 (Js.template z) = Js.template z.
Proof.
  destruct (template_head z) as (c & t & -> & _).
  reflexivity.
Qed.

(** With no decimals, the digits printed for a magnitude below 10^21 are
    those of the integer next to it, a tie going up. *)
Lemma digits_text_nearest (q : Q) :
  (q < inject_Z (10 ^ 21))%Q ->
  Js64.digits_text 0 q = Some (Js.template (Qfloor (q + (1 # 2)))).
Proof.
  intros Hq. unfold Js64.digits_text.
  destruct (Qle_bool (inject_Z (10 ^ 21)) q) eqn:Hle.
  - apply Qle_bool_iff in Hle. lra.
  - cbv zeta. rewrite pad_template.
    change (1 =? 0)%nat with false.
    change (0 =? 0)%nat with true. cbv iota.
    f_equal. f_equal. apply Qfloor_comp.
    change (inject_Z (10 ^ Z.of_nat 0)) with 1%Q. lra.
Qed.

Lemma magnitude_positive (m : positive) (e : Z) :
  (0 < (if (0 <=? e)%Z then inject_Z (Z.pos m * 2 ^ e)
        else Z.pos m # 2 ^ Z.to_pos (- e)))%Q.
Proof.
  destruct (0 <=? e)%Z eqn:He.
  - apply Z.leb_le in He.
    change 0%Q with (inject_Z 0). rewrite <- Zlt_Qlt.
    pose proof (Z.pow_pos_nonneg 2 e ltac:(lia) He). nia.
  - unfold Qlt. simpl. lia.
Qed.

(** What [toFixed(0)] prints for a finite number, from its exact value. *)
Lemma toFixed0_of_value (x : float) (q : Q) :
  Js64.value x = Some q ->
  Js64.toFixed 0 x =
    if Qle_bool 0 q then Js64.digits_text 0 q
    else String.append "-" <$> Js64.digits_text 0 (- q).
Proof.
  unfold Js64.toFixed, Js64.value.
  destruct (Prim2SF x) as [sg | sg | | sg m e]; try discriminate.
  - intros H. injection H as <-. reflexivity.
  - intros H. injection H as <-.
    pose proof (magnitude_positive m e) as Hpos. cbv zeta.
    set (mag := if (0 <=? e)%Z then inject_Z (Z.pos m * 2 ^ e)
                else Z.pos m # 2 ^ Z.to_pos (- e)) in *.
    destruct sg.
    + destruct (Qle_bool 0 (- mag)) eqn:Hle; [| reflexivity].
      apply Qle_bool_iff in Hle. lra.
    + destruct (Qle_bool 0 mag) eqn:Hle; [reflexivity |].
      assert (Hle' : Qle_bool 0 mag = true) by (apply Qle_bool_iff; lra).
      congruence.
Qed.

Lemma render_next (f : Api.Festival) (rest : list Api.Festival) :
  exists b, FestivalBanner.render false (f :: rest) = Some b /\
    FestivalBanner.isUrgent b = (Api.days_until f <=? 14)%Z /\
    FestivalBanner.prepare_now b = FestivalBanner.isUrgent b /\
    FestivalBanner.increase_percent b =
      (if FestivalBanner.isUrgent b
       then Some (Js64.toFixed 0 (FestivalBanner.increase f))
       else None).
Proof. eexists. split; [reflexivity |]. simpl. auto. Qed.

(** C9, amended.  The banner flags the next festival as urgent exactly when
    its days_until is at most 14; the expected increase is displayed only
    for an urgent festival, and what is displayed is the binary64 value of
    (demand_multiplier - 1) * 100 printed with no decimals: for a value [q]
    below 10^21 in magnitude, the digits of the whole number within one half
    of the magnitude of [q] (a tie going away from zero), after a minus sign
    when [q] is negative. *)
Theorem festival_urgency_and_increase (f : Api.Festival) (rest : list Api.Festival) :
  exists b,
    FestivalBanner.render false (f :: rest) = Some b /\
    (FestivalBanner.isUrgent b = true <-> (Api.days_until f <= 14)%Z) /\
    FestivalBanner.prepare_now b = FestivalBanner.isUrgent b /\
    FestivalBanner.increase_percent b =
      (if FestivalBanner.isUrgent b
       then Some (Js64.toFixed 0 (FestivalBanner.increase f))
       else None) /\
    (forall q : Q,
       Js64.value (FestivalBanner.increase f) = Some q ->
       (Qabs q < inject_Z (10 ^ 21))%Q ->
       exists n : Z,
         (inject_Z n - (1 # 2) <= Qabs q)%Q /\
         (Qabs q < inject_Z n + (1 # 2))%Q /\
         Js64.toFixed 0 (FestivalBanner.increase f) =
           Some (if Qle_bool 0 q then Js.template n else "-" +:+ Js.template n)).
Proof.
  destruct (render_next f rest) as (b & Hb & Hu & Hp & Hi).
  exists b. split; [exact Hb |].
  split; [rewrite Hu; apply Z.leb_le |].
  split; [exact Hp |].
  split; [exact Hi |].
  intros q Hq Hsmall.
  exists (Qfloor (Qabs q + (1 # 2))).
  split; [apply half_up_nearest |].
  split; [apply half_up_nearest |].
  rewrite (toFixed0_of_value _ _ Hq).
  destruct (Qle_bool 0 q) eqn:Hsign.
  - apply Qle_bool_iff in Hsign.
    pose proof (Qabs_pos q Hsign) as Habs.
    rewrite digits_text_nearest by lra.
    do 2 f_equal. apply Qfloor_comp. lra.
  - assert (Hneg : (q <= 0)%Q).
    { destruct (Qlt_le_dec 0 q) as [Hpos | Hle]; [| exact Hle].
      assert (Qle_bool 0 q = true) by (apply Qle_bool_iff; lra). congruence. }
    pose proof (Qabs_neg q Hneg) as Habs.
    rewrite digits_text_nearest by lra.
    replace (Qfloor (Qabs q + (1 # 2))) with (Qfloor (- q + (1 # 2)))
      by (apply Qfloor_comp; lra).
    reflexivity.
Qed.

(** C9, as stated, fails on the displayed figure: for a multiplier of 1.125
    the increase is 12.5 percent, in binary64 as in exact arithmetic, and the
    banner shows 13. *)
Lemma displayed_increase_is_rounded :
  FestivalBanner.increase_percent <$> FestivalBanner.render false [Samples.festival 1.125 3]
    = Some (Some (Some "13")) /\
  exists q : Q,
    Js64.value (FestivalBanner.increase (Samples.festival 1.125 3)) = Some q /\
    (q == 12.5)%Q /\ ~ (q == 13)%Q.
Proof.
  split; [vm_compute; reflexivity |].
  eexists. split; [vm_compute; reflexivity |].
  split; [reflexivity |].
  intros H. vm_compute in H. discriminate H.
Qed.

Lemma festival_urgency_and_increase_witness :
  exists b,
    FestivalBanner.render false [Samples.festival 2.5 14] = Some b /\
    FestivalBanner.isUrgent b = true /\
    FestivalBanner.increase_percent b = Some (Some "150").
Proof.
  destruct (festival_urgency_and_increase (Samples.festival 2.5 14) [])
    as (b & Hb & Hu & _ & Hi & _).
  exists b. split; [exact Hb |].
  assert (Hurgent : FestivalBanner.isUrgent b = true) by (apply Hu; simpl; lia).
  split; [exact Hurgent |].
  rewrite Hi, Hurgent. vm_compute. reflexivity.
Defined.

(** The figure follows the binary64 value, not the decimal one: for a
    multiplier of 1.285 the decimal increase is 28.5 and the banner shows
    28. *)
Example increase_of_1285 :
  FestivalBanner.increase_percent <$> FestivalBanner.render false [Samples.festival 1.285 3]
    = Some (Some (Some "28")).
Proof. vm_compute. reflexivity. Qed.

Example increase_of_250 :
  FestivalBanner.increase_percent <$> FestivalBanner.render false [Samples.festival 2.5 14]
    = Some (Some (Some "150")) /\
  FestivalBanner.increase_percent <$> FestivalBanner.render false [Samples.festival 2.5 15]
    = Some None.
Proof. split; vm_compute; reflexivity. Qed.

(** ** ESGScorecard: the methane offset *)

(** The fallback data set: its methane offset is the binary64 number next
    below the product of its waste figure with 0.918; the decimal product
    137.7 lies between the two, nearer to the fallback's number; and the two
    are printed alike. *)
Lemma fallback_methane :
  let m := ESGScorecard64.fallback_metrics in
  Js64.strict_eq (ESGScorecard64.methane_offset_kg_co2e m)
                 (ESGScorecard64.methane_of_waste m) = false /\
  PrimFloat.next_up (ESGScorecard64.methane_offset_kg_co2e m) =
    ESGScorecard64.methane_of_waste m /\
  (exists lit prod : Q,
     Js64.value (ESGScorecard64.methane_offset_kg_co2e m) = Some lit /\
     Js64.value (ESGScorecard64.methane_of_waste m) = Some prod /\
     (lit < 137.7)%Q /\ (137.7 < prod)%Q /\ (137.7 - lit < prod - 137.7)%Q) /\
  (forall compact,
     ESGScorecard64.methane_text compact (ESGScorecard64.methane_offset_kg_co2e m) =
     ESGScorecard64.methane_text compact (ESGScorecard64.methane_of_waste m)) /\
  ESGScorecard64.trees (ESGScorecard64.methane_offset_kg_co2e m) =
    ESGScorecard64.trees (ESGScorecard64.methane_of_waste m).
Proof.
  cbv zeta.
  split; [vm_compute; reflexivity |].
  split; [vm_compute; reflexivity |].
  split.
  - eexists _, _.
    split; [vm_compute; reflexivity |].
    split; [vm_compute; reflexivity |].
    repeat split; vm_compute; reflexivity.
  - split; [intros []; vm_compute; reflexivity | vm_compute; reflexivity].
Qed.

(** C1, amended.  A metrics value held by the scorecard is the prop it was
    given, the payload of /esg, the value built on the legacy path or the
    hardcoded fallback.  On the legacy path methane_offset_kg_co2e is the
    binary64 product waste_saved_kg * 0.918.  The fallback, used when no
    prop is given and the request fails, holds 150 and 137.7: there
    methane_offset_kg_co2e is not that product but the binary64 number next
    below it, and both are printed as the same text. *)
Theorem methane_offset_by_path (wasteSavedKg : option float)
    (propMetrics : option ESGScorecard64.ESGMetrics) (o : ESGScorecard64.FetchOutcome)
    (m : ESGScorecard64.ESGMetrics) :
  ESGScorecard64.metrics_state wasteSavedKg propMetrics o = Some m ->
  propMetrics = Some m \/
  o = ESGScorecard64.FetchOk m \/
  (exists w, wasteSavedKg = Some w /\ Js64.truthy w = true /\
     ESGScorecard64.waste_saved_kg m = w /\
     ESGScorecard64.methane_offset_kg_co2e m = ESGScorecard64.methane_of_waste m) \/
  (propMetrics = None /\ o = ESGScorecard64.FetchFailed /\
   ESGScorecard64.waste_saved_kg m = 150%float /\
   ESGScorecard64.methane_offset_kg_co2e m = 137.7%float /\
   Js64.strict_eq (ESGScorecard64.methane_offset_kg_co2e m)
                  (ESGScorecard64.methane_of_waste m) = false /\
   PrimFloat.next_up (ESGScorecard64.methane_offset_kg_co2e m) =
     ESGScorecard64.methane_of_waste m /\
   forall compact,
     ESGScorecard64.methane_text compact (ESGScorecard64.methane_offset_kg_co2e m) =
     ESGScorecard64.methane_text compact (ESGScorecard64.methane_of_waste m)).
Proof.
  assert (Hfallback :
    ESGScorecard64.metrics_state None None ESGScorecard64.FetchFailed = Some m ->
    ESGScorecard64.waste_saved_kg m = 150%float /\
    ESGScorecard64.methane_offset_kg_co2e m = 137.7%float /\
    Js64.strict_eq (ESGScorecard64.methane_offset_kg_co2e m)
                   (ESGScorecard64.methane_of_waste m) = false /\
    PrimFloat.next_up (ESGScorecard64.methane_offset_kg_co2e m) =
      ESGScorecard64.methane_of_waste m /\
    forall compact,
      ESGScorecard64.methane_text compact (ESGScorecard64.methane_offset_kg_co2e m) =
      ESGScorecard64.methane_text compact (ESGScorecard64.methane_of_waste m)).
  { intros H. injection H as <-.
    destruct fallback_methane as (Hne & Hnext & _ & Htext & _).
    repeat split; assumption. }
  unfold ESGScorecard64.metrics_state.
  destruct propMetrics as [pm |], wasteSavedKg as [w |]; simpl.
  - rewrite andb_false_r. auto.
  - auto.
  - destruct (Js64.truthy w) eqn:Ht; simpl.
    + intros H. injection H as <-.
      right; right; left. exists w. repeat split; auto.
    + destruct o as [d |]; intros H.
      * right; left. congruence.
      * right; right; right. split; [reflexivity |]. split; [reflexivity |].
        apply Hfallback. exact H.
  - destruct o as [d |]; intros H.
    + right; left. congruence.
    + right; right; right. split; [reflexivity |]. split; [reflexivity |].
      apply Hfallback. exact H.
Qed.

(** C1, as stated, fails on the fallback: with no prop and a failed request
    the scorecard holds 150 and 137.7, and in binary64
    [137.7 === 150 * 0.918] is false (the product is 137.70000000000002). *)
Lemma fallback_methane_differs :
  exists m,
    ESGScorecard64.metrics_state None None ESGScorecard64.FetchFailed = Some m /\
    Js64.strict_eq (ESGScorecard64.methane_offset_kg_co2e m)
                   (ESGScorecard64.waste_saved_kg m * 0.918)%float = false /\
    Js64.strict_eq (ESGScorecard64.waste_saved_kg m * 0.918)%float
                   137.70000000000002%float = true.
Proof.
  eexists. split; [reflexivity |].
  split; vm_compute; reflexivity.
Qed.

Lemma methane_offset_by_path_witness :
  ESGScorecard64.methane_offset_kg_co2e (ESGScorecard64.legacy_metrics 10) =
    ESGScorecard64.methane_of_waste (ESGScorecard64.legacy_metrics 10) /\
  PrimFloat.next_up (ESGScorecard64.methane_offset_kg_co2e ESGScorecard64.fallback_metrics) =
    ESGScorecard64.methane_of_waste ESGScorecard64.fallback_metrics.
Proof.
  split.
  - destruct (methane_offset_by_path (Some 10%float) None ESGScorecard64.FetchFailed
                (ESGScorecard64.legacy_metrics 10) eq_refl)
      as [Hp | [Ho | [(w & _ & _ & _ & Hm) | (_ & _ & _ & Hm & _)]]].
    + discriminate Hp.
    + discriminate Ho.
    + exact Hm.
    + vm_compute in Hm. discriminate Hm.
  - destruct (methane_offset_by_path None None ESGScorecard64.FetchFailed
                ESGScorecard64.fallback_metrics eq_refl)
      as [Hp | [Ho | [(w & Hw & _) | (_ & _ & _ & _ & _ & Hm & _)]]].
    + discriminate Hp.
    + discriminate Ho.
    + discriminate Hw.
    + exact Hm.
Defined.

(** ** SustainabilityAlerts: marking an alert as sold *)

Lemma handleMarkAsSold_sold (alert : Api.SustainabilityAlert)
    (r : SustainabilityAlerts.Reply) (st : SustainabilityAlerts.State) :
  SustainabilityAlerts.soldAlerts (SustainabilityAlerts.handleMarkAsSold alert r st) =
    match r with
    | SustainabilityAlerts.Responded true =>
        SustainabilityAlerts.soldAlerts st ∪ {[ Api.id alert ]}
    | _ => SustainabilityAlerts.soldAlerts st
    end.
Proof. destruct r as [| [|]]; reflexivity. Qed.

Lemma handleMarkAsSold_marker (alert : Api.SustainabilityAlert)
    (r : SustainabilityAlerts.Reply) (st : SustainabilityAlerts.State) :
  SustainabilityAlerts.markingId (SustainabilityAlerts.handleMarkAsSold alert r st) = None.
Proof. reflexivity. Qed.

Lemma card_unsold (st : SustainabilityAlerts.State) (alert : Api.SustainabilityAlert) :
  Api.id alert ∉ SustainabilityAlerts.soldAlerts st ->
  SustainabilityAlerts.markingId st = None ->
  SustainabilityAlerts.badge (SustainabilityAlerts.card st alert) =
    SustainabilityAlerts.alertTypeLabels (Api.alert_type alert) /\
  SustainabilityAlerts.body (SustainabilityAlerts.card st alert) = Api.message alert /\
  SustainabilityAlerts.action (SustainabilityAlerts.card st alert) =
    Some (Api.recommended_action alert) /\
  SustainabilityAlerts.button (SustainabilityAlerts.card st alert) = Some "Mark as Sold".
Proof.
  intros Hns Hmark. unfold SustainabilityAlerts.card. simpl.
  rewrite bool_decide_eq_false_2 by exact Hns.
  rewrite Hmark, bool_decide_eq_false_2 by discriminate.
  auto.
Qed.

Lemma card_sold (st : SustainabilityAlerts.State) (alert : Api.SustainabilityAlert) :
  Api.id alert ∈ SustainabilityAlerts.soldAlerts st ->
  SustainabilityAlerts.badge (SustainabilityAlerts.card st alert) = "Sold" /\
  SustainabilityAlerts.body (SustainabilityAlerts.card st alert) =
    "Item sold - ESG metrics updated" /\
  SustainabilityAlerts.action (SustainabilityAlerts.card st alert) = None /\
  SustainabilityAlerts.button (SustainabilityAlerts.card st alert) = None.
Proof.
  intros Hs. unfold SustainabilityAlerts.card. simpl.
  rewrite bool_decide_eq_true_2 by exact Hs. auto.
Qed.

(** C6.  For an alert that is not yet in the sold set, the handler puts it
    there if and only if the request was answered with an ok response.  When
    the request throws or is answered with an error, the sold set is left as
    it was and the card of the alert is the unresolved one: the badge of its
    alert type, its own message and recommended action, and the Mark as Sold
    button.  When the request succeeds the card turns to Sold.  The
    membership of every other id is untouched in all cases. *)
Theorem mark_sold_atomic (alert : Api.SustainabilityAlert)
    (r : SustainabilityAlerts.Reply) (st : SustainabilityAlerts.State) :
  Api.id alert ∉ SustainabilityAlerts.soldAlerts st ->
  (Api.id alert ∈ SustainabilityAlerts.soldAlerts
                    (SustainabilityAlerts.handleMarkAsSold alert r st)
   <-> r = SustainabilityAlerts.Responded true) /\
  (r <> SustainabilityAlerts.Responded true ->
   SustainabilityAlerts.soldAlerts (SustainabilityAlerts.handleMarkAsSold alert r st) =
     SustainabilityAlerts.soldAlerts st /\
   SustainabilityAlerts.badge
     (SustainabilityAlerts.card (SustainabilityAlerts.handleMarkAsSold alert r st) alert) =
     SustainabilityAlerts.alertTypeLabels (Api.alert_type alert) /\
   SustainabilityAlerts.body
     (SustainabilityAlerts.card (SustainabilityAlerts.handleMarkAsSold alert r st) alert) =
     Api.message alert /\
   SustainabilityAlerts.action
     (SustainabilityAlerts.card (SustainabilityAlerts.handleMarkAsSold alert r st) alert) =
     Some (Api.recommended_action alert) /\
   SustainabilityAlerts.button
     (SustainabilityAlerts.card (SustainabilityAlerts.handleMarkAsSold alert r st) alert) =
     Some "Mark as Sold") /\
  (r = SustainabilityAlerts.Responded true ->
   SustainabilityAlerts.badge
     (SustainabilityAlerts.card (SustainabilityAlerts.handleMarkAsSold alert r st) alert) =
     "Sold") /\
  (forall i, i <> Api.id alert ->
     (i ∈ SustainabilityAlerts.soldAlerts (SustainabilityAlerts.handleMarkAsSold alert r st)
      <-> i ∈ SustainabilityAlerts.soldAlerts st)).
Proof.
  intros Hns.
  split; [| split; [| split]].
  - rewrite handleMarkAsSold_sold. destruct r as [| [|]].
    + split; [intros H; contradiction | discriminate].
    + split; [reflexivity | intros _; apply elem_of_union_r, elem_of_singleton; reflexivity].
    + split; [intros H; contradiction | discriminate].
  - intros Hr.
    assert (Hsame : SustainabilityAlerts.soldAlerts
                      (SustainabilityAlerts.handleMarkAsSold alert r st) =
                    SustainabilityAlerts.soldAlerts st).
    { rewrite handleMarkAsSold_sold. destruct r as [| [|]]; congruence. }
    split; [exact Hsame |].
    apply card_unsold.
    + rewrite Hsame. exact Hns.
    + apply handleMarkAsSold_marker.
  - intros ->. apply card_sold.
    rewrite handleMarkAsSold_sold. set_solver.
  - intros i Hi. rewrite handleMarkAsSold_sold.
    destruct r as [| [|]]; [reflexivity | | reflexivity].
    rewrite elem_of_union, elem_of_singleton. tauto.
Qed.

Lemma mark_sold_atomic_witness :
  Api.id Samples.expired_alert ∈
    SustainabilityAlerts.soldAlerts
      (SustainabilityAlerts.handleMarkAsSold Samples.expired_alert
         (SustainabilityAlerts.Responded true) (Samples.panel ∅)) /\
  SustainabilityAlerts.soldAlerts
    (SustainabilityAlerts.handleMarkAsSold Samples.expired_alert
       SustainabilityAlerts.Threw (Samples.panel ∅)) = ∅.
Proof.
  destruct (mark_sold_atomic Samples.expired_alert (SustainabilityAlerts.Responded true)
              (Samples.panel ∅)) as (Hiff & _).
  { simpl. apply not_elem_of_empty. }
  destruct (mark_sold_atomic Samples.expired_alert SustainabilityAlerts.Threw
              (Samples.panel ∅)) as (_ & Hfail & _).
  { simpl. apply not_elem_of_empty. }
  split.
  - apply Hiff. reflexivity.
  - apply Hfail. discriminate.
Defined.

(** ** Marking as sold and the ledger *)

Lemma serve_cases (b : SustainabilityAlerts.MarkSoldBody) (timestamp : Z)
    (log : list Ledger.LedgerEvent) :
  MarkSold.serve b timestamp log = (false, log) \/
  MarkSold.serve b timestamp log =
    (true, log ++ [{| Ledger.ev_alert_id := SustainabilityAlerts.alert_id b;
                      Ledger.ev_product_id := SustainabilityAlerts.body_product_id b;
                      Ledger.ev_quantity_kg := SustainabilityAlerts.quantity_kg b;
                      Ledger.ev_cost_recovered := SustainabilityAlerts.cost_rm b;
                      Ledger.ev_timestamp := timestamp |}]).
Proof.
  unfold MarkSold.serve, Ledger.markSold, Ledger.recordRescue.
  destruct (Qle_bool (SustainabilityAlerts.quantity_kg b) 0); auto.
Qed.

(** One click either leaves the sold set alone and loses no ledger event, or
    adds the clicked alert to the sold set together with one appended event
    that matches the alert. *)
Lemma click_outcome (alert : Api.SustainabilityAlert) (d : MarkSold.Delivery)
    (timestamp : Z) (w : MarkSold.World) :
  (SustainabilityAlerts.soldAlerts (MarkSold.client (MarkSold.click alert d timestamp w)) =
     SustainabilityAlerts.soldAlerts (MarkSold.client w) /\
   forall ev, ev ∈ MarkSold.ledger w -> ev ∈ MarkSold.ledger (MarkSold.click alert d timestamp w))
  \/
  (SustainabilityAlerts.soldAlerts (MarkSold.client (MarkSold.click alert d timestamp w)) =
     SustainabilityAlerts.soldAlerts (MarkSold.client w) ∪ {[ Api.id alert ]} /\
   exists ev,
     MarkSold.ledger (MarkSold.click alert d timestamp w) = MarkSold.ledger w ++ [ev] /\
     MarkSold.matches ev alert).
Proof.
  destruct d as [| arrives]; simpl.
  - left. split; [reflexivity | auto].
  - destruct (serve_cases (SustainabilityAlerts.mark_sold_body alert) timestamp
                (MarkSold.ledger w)) as [Hs | Hs]; rewrite Hs; simpl.
    + left. split; [destruct arrives; reflexivity | auto].
    + destruct arrives; simpl.
      * right. split; [reflexivity |].
        eexists. split; [reflexivity |]. repeat split.
      * left. split; [reflexivity |].
        intros ev Hev. apply elem_of_app. left. exact Hev.
Qed.

Lemma click_keeps_events (alert : Api.SustainabilityAlert) (d : MarkSold.Delivery)
    (timestamp : Z) (w : MarkSold.World) (ev : Ledger.LedgerEvent) :
  ev ∈ MarkSold.ledger w -> ev ∈ MarkSold.ledger (MarkSold.click alert d timestamp w).
Proof.
  intros Hev.
  destruct (click_outcome alert d timestamp w) as [[_ Hkeep] | [_ (ev' & Hl & _)]].
  - apply Hkeep, Hev.
  - rewrite Hl. apply elem_of_app. left. exact Hev.
Qed.

Lemma run_keeps_events (cs : list MarkSold.Click) :
  forall (w : MarkSold.World) (ev : Ledger.LedgerEvent),
    ev ∈ MarkSold.ledger w -> ev ∈ MarkSold.ledger (MarkSold.run w cs).
Proof.
  induction cs as [| c cs IH]; intros w ev Hev; simpl.
  - exact Hev.
  - apply IH, click_keeps_events, Hev.
Qed.

Lemma run_sold (cs : list MarkSold.Click) :
  forall (w : MarkSold.World) (i : string),
    i ∈ SustainabilityAlerts.soldAlerts (MarkSold.client (MarkSold.run w cs)) ->
    i ∈ SustainabilityAlerts.soldAlerts (MarkSold.client w) \/
    exists c ev,
      c ∈ cs /\ Api.id (MarkSold.clicked c) = i /\
      ev ∈ MarkSold.ledger (MarkSold.run w cs) /\
      MarkSold.matches ev (MarkSold.clicked c).
Proof.
  induction cs as [| c cs IH]; intros w i Hi; simpl in *.
  - left. exact Hi.
  - destruct (IH _ _ Hi) as [Hnow | (c' & ev & Hc' & Hid & Hev & Hm)].
    + destruct (click_outcome (MarkSold.clicked c) (MarkSold.delivery c)
                  (MarkSold.at_time c) w) as [[Hsame _] | [Hadd (ev & Hl & Hm)]].
      * left. rewrite <- Hsame. exact Hnow.
      * rewrite Hadd in Hnow. apply elem_of_union in Hnow as [Hold | Hnew].
        -- left. exact Hold.
        -- apply elem_of_singleton in Hnew. right. exists c, ev.
           split; [apply elem_of_cons; auto |].
           split; [congruence |].
           split; [| exact Hm].
           apply run_keeps_events. rewrite Hl.
           apply elem_of_app. right. apply list_elem_of_singleton. reflexivity.
    + right. exists c', ev.
      split; [apply elem_of_cons; auto |]. auto.
Qed.

(** C5.  When a click on Mark as Sold moves an alert into the sold set, the
    ledger has grown by exactly one event, and that event carries the
    alert's id, its potential_waste_kg as quantity and its potential_loss_rm
    as cost.  Hence, after any sequence of clicks on a freshly rendered
    panel, every id in the sold set belongs to a clicked alert for which the
    ledger holds a matching event. *)
Theorem sold_alert_has_ledger_event (alerts : list Api.SustainabilityAlert)
    (log : list Ledger.LedgerEvent) (cs : list MarkSold.Click) :
  (forall alert d timestamp w,
     Api.id alert ∉ SustainabilityAlerts.soldAlerts (MarkSold.client w) ->
     Api.id alert ∈ SustainabilityAlerts.soldAlerts
                      (MarkSold.client (MarkSold.click alert d timestamp w)) ->
     exists ev,
       MarkSold.ledger (MarkSold.click alert d timestamp w) = MarkSold.ledger w ++ [ev] /\
       Ledger.ev_alert_id ev = Api.id alert /\
       Ledger.ev_quantity_kg ev = Api.potential_waste_kg alert /\
       Ledger.ev_cost_recovered ev = Api.potential_loss_rm alert) /\
  (forall i,
     i ∈ SustainabilityAlerts.soldAlerts
           (MarkSold.client (MarkSold.run (MarkSold.start alerts log) cs)) ->
     exists c ev,
       c ∈ cs /\ Api.id (MarkSold.clicked c) = i /\
       ev ∈ MarkSold.ledger (MarkSold.run (MarkSold.start alerts log) cs) /\
       Ledger.ev_alert_id ev = i /\
       Ledger.ev_quantity_kg ev = Api.potential_waste_kg (MarkSold.clicked c) /\
       Ledger.ev_cost_recovered ev = Api.potential_loss_rm (MarkSold.clicked c)).
Proof.
  split.
  - intros alert d timestamp w Hns Hs.
    destruct (click_outcome alert d timestamp w) as [[Hsame _] | [_ (ev & Hl & Hm)]].
    + rewrite Hsame in Hs. contradiction.
    + exists ev. split; [exact Hl | exact Hm].
  - intros i Hi.
    destruct (run_sold cs _ _ Hi) as [Hstart | (c & ev & Hc & Hid & Hev & Ha & Hq & Hr)].
    + simpl in Hstart. now apply not_elem_of_empty in Hstart.
    + exists c, ev. repeat split; try assumption. congruence.
Qed.

Lemma sold_alert_has_ledger_event_witness :
  exists ev,
    ev ∈ MarkSold.ledger
           (MarkSold.run (MarkSold.start [Samples.expired_alert] []) [Samples.sold_click]) /\
    Ledger.ev_alert_id ev = "A1" /\
    Ledger.ev_quantity_kg ev = 10%Q.
Proof.
  destruct (sold_alert_has_ledger_event [Samples.expired_alert] [] [Samples.sold_click])
    as [_ Hrun].
  destruct (Hrun "A1") as (c & ev & Hc & _ & Hev & Ha & Hq & _).
  { simpl. apply elem_of_union_r, elem_of_singleton. reflexivity. }
  exists ev. split; [exact Hev |]. split; [exact Ha |].
  apply list_elem_of_singleton in Hc. subst c. exact Hq.
Defined.

(** ** Bar heights of the forecast chart and of the monthly trend *)







(** The forecaster, as specified, produces such a forecast for a product
    with a baseline demand of zero: all seven bars have NaN heights. *)
Lemma idle_forecast_heights :
  ForecastChart.bars Samples.idle_forecast =
    repeat {| ForecastChart.height := Js.NaN;
              ForecastChart.lowerHeight := Js.NaN;
              ForecastChart.upperHeight := Js.NaN |} 7.
Proof. vm_compute. reflexivity. Qed.


(** ** The forecaster: lengths and confidence bounds *)

Lemma qmax_left (a b : Q) : (a <= Forecaster.qmax a b)%Q.
Proof.
  unfold Forecaster.qmax. destruct (Qle_bool a b) eqn:Hab.
  - apply Qle_bool_iff, Hab.
  - apply Qle_refl.
Qed.

Lemma qmax_lub (a b c : Q) : (a <= c)%Q -> (b <= c)%Q -> (Forecaster.qmax a b <= c)%Q.
Proof. intros Ha Hb. unfold Forecaster.qmax. destruct (Qle_bool a b); assumption. Qed.

Lemma dow_multiplier_nonneg (e : Forecaster.Env) (d : Z) :
  (0 <= Forecaster.dow_multiplier e d)%Q.
Proof.
  unfold Forecaster.dow_multiplier, Forecaster.clamp.
  apply Qle_trans with (y := 0.5%Q); [discriminate | apply qmax_left].
Qed.

Lemma payday_multiplier_nonneg (e : Forecaster.Env) (d : Z) :
  (-1 <= Forecaster.payday_boost e)%Q -> (0 <= Forecaster.payday_multiplier e d)%Q.
Proof.
  intros Hb. unfold Forecaster.payday_multiplier.
  destruct (_ || _); lra.
Qed.

Lemma baseline_at_nonneg (e : Forecaster.Env) (d : Z) :
  Forecaster.steady e -> (Forecaster.today e <= d)%Z ->
  (0 <= Forecaster.baseline_at e d)%Q.
Proof.
  intros He Hd. unfold Forecaster.baseline_at.
  pose proof (Forecaster.baseline_nonneg e He) as Hb.
  pose proof (Forecaster.slope_nonneg e He) as Hs.
  assert (Hoff : (0 <= inject_Z (d - Forecaster.today e))%Q).
  { change 0%Q with (inject_Z 0). rewrite <- Zle_Qle. lia. }
  pose proof (Qmult_le_0_compat _ _ Hs Hoff). lra.
Qed.

Lemma unadjusted_nonneg (e : Forecaster.Env) (d : Z) :
  Forecaster.steady e -> (Forecaster.today e <= d)%Z ->
  (0 <= Forecaster.unadjusted e d)%Q.
Proof.
  intros He Hd. unfold Forecaster.unadjusted.
  apply Qmult_le_0_compat; [apply Qmult_le_0_compat |].
  - apply baseline_at_nonneg; assumption.
  - apply dow_multiplier_nonneg.
  - apply payday_multiplier_nonneg, (Forecaster.payday_boost_ok e He).
Qed.

Lemma soonest_elem (fs : list Forecaster.CalendarFestival) (f : Forecaster.CalendarFestival) :
  Forecaster.soonest fs = Some f -> f ∈ fs.
Proof.
  revert f. induction fs as [| g fs IH]; intros f Hf; simpl in Hf.
  - discriminate.
  - destruct (Forecaster.soonest fs) as [g' |].
    + destruct (Forecaster.fest_date g <=? Forecaster.fest_date g')%Z;
        injection Hf as <-.
      * apply elem_of_cons. auto.
      * apply elem_of_cons. right. apply IH. reflexivity.
    + injection Hf as <-. apply elem_of_cons. auto.
Qed.

Lemma overlay_multiplier (e : Forecaster.Env) (h : nat) (f : Forecaster.CalendarFestival) :
  Forecaster.steady e -> Forecaster.overlay e h = Some f ->
  (1 <= Forecaster.fest_multiplier f)%Q.
Proof.
  intros He Hf. apply soonest_elem, list_elem_of_filter in Hf as [_ Hf].
  pose proof (Forecaster.festival_multiplier_ok e He) as Hall.
  rewrite Forall_forall in Hall. apply Hall, Hf.
Qed.

Lemma uplift_ge_one (e : Forecaster.Env) (f : Forecaster.CalendarFestival) (d : Z) :
  (0 <= Forecaster.window e)%Z -> (1 <= Forecaster.fest_multiplier f)%Q ->
  (1 <= Forecaster.uplift e f d)%Q.
Proof.
  intros Hw Hm. unfold Forecaster.uplift.
  destruct (Z.leb_spec (Z.abs (d - Forecaster.fest_date f)) (Forecaster.window e))
    as [Hin | Hout]; [| apply Qle_refl].
  set (dist := Z.abs (d - Forecaster.fest_date f)) in *.
  assert (Hpos : (0 < inject_Z (Forecaster.window e + 1))%Q).
  { change 0%Q with (inject_Z 0). rewrite <- Zlt_Qlt. lia. }
  assert (Hfrac : (inject_Z dist / inject_Z (Forecaster.window e + 1) <= 1)%Q).
  { apply Qle_shift_div_r; [exact Hpos |].
    rewrite Qmult_1_l, <- Zle_Qle. lia. }
  assert (Hprod : (0 <= (Forecaster.fest_multiplier f - 1) *
                        (1 - inject_Z dist / inject_Z (Forecaster.window e + 1)))%Q).
  { apply Qmult_le_0_compat; lra. }
  lra.
Qed.

Lemma predicted_nonneg (e : Forecaster.Env) (h : nat) (d : Z) :
  Forecaster.steady e -> (Forecaster.today e <= d)%Z ->
  (0 <= Forecaster.predicted e h d)%Q.
Proof.
  intros He Hd. unfold Forecaster.predicted.
  destruct (Forecaster.overlay e h) as [f |] eqn:Hf.
  - apply Qmult_le_0_compat; [apply unadjusted_nonneg; assumption |].
    apply Qle_trans with (y := 1%Q); [discriminate |].
    apply uplift_ge_one.
    + apply (Forecaster.window_nonneg e He).
    + apply (overlay_multiplier e h f He Hf).
  - apply unadjusted_nonneg; assumption.
Qed.

Lemma sqrtQ_nonneg (x : Q) : (0 <= Forecaster.sqrtQ x)%Q.
Proof.
  unfold Forecaster.sqrtQ.
  apply Qle_shift_div_l; [reflexivity |].
  rewrite Qmult_0_l. change 0%Q with (inject_Z 0). rewrite <- Zle_Qle.
  apply Z.sqrt_nonneg.
Qed.

Lemma bound_nonneg (e : Forecaster.Env) (i : nat) (p : Q) :
  (0 <= Forecaster.k e)%Q -> (0 <= p)%Q -> (0 <= Forecaster.bound e i p)%Q.
Proof.
  intros Hk Hp. unfold Forecaster.bound.
  apply Qmult_le_0_compat; [apply Qmult_le_0_compat |].
  - exact Hp.
  - exact Hk.
  - apply sqrtQ_nonneg.
Qed.

Lemma interval_contains (e : Forecaster.Env) (i : nat) (p : Q) :
  (0 <= Forecaster.k e)%Q -> (0 <= p)%Q ->
  (Forecaster.lower_at e i p <= p)%Q /\ (p <= Forecaster.upper_at e i p)%Q /\
  (0 <= Forecaster.lower_at e i p)%Q.
Proof.
  intros Hk Hp. pose proof (bound_nonneg e i p Hk Hp) as Hb.
  unfold Forecaster.lower_at, Forecaster.upper_at.
  split; [| split].
  - apply qmax_lub; lra.
  - lra.
  - apply qmax_left.
Qed.

Lemma build_lengths (e : Forecaster.Env) (h : nat) :
  length (Api.dates (Forecaster.build e h)) = h /\
  length (Api.predicted_demand (Forecaster.build e h)) = h /\
  length (Api.confidence_lower (Forecaster.build e h)) = h /\
  length (Api.confidence_upper (Forecaster.build e h)) = h.
Proof.
  unfold Forecaster.build, Forecaster.horizon_dates. simpl.
  rewrite !length_imap, !length_map, length_seq. auto.
Qed.

Lemma build_dates (e : Forecaster.Env) (h i : nat) :
  i < h ->
  Api.dates (Forecaster.build e h) !! i = Some (Forecaster.today e + 1 + Z.of_nat i)%Z.
Proof.
  intros Hi. unfold Forecaster.build, Forecaster.horizon_dates. simpl.
  change (map ?g ?l) with (g <$> l).
  rewrite list_lookup_fmap, lookup_seq_lt by exact Hi. reflexivity.
Qed.

Lemma build_entries (e : Forecaster.Env) (h i : nat) :
  i < h ->
  exists p,
    p = Forecaster.predicted e h (Forecaster.today e + 1 + Z.of_nat i)%Z /\
    Api.predicted_demand (Forecaster.build e h) !! i = Some p /\
    Api.confidence_lower (Forecaster.build e h) !! i = Some (Forecaster.lower_at e i p) /\
    Api.confidence_upper (Forecaster.build e h) !! i = Some (Forecaster.upper_at e i p).
Proof.
  intros Hi. eexists. split; [reflexivity |].
  unfold Forecaster.build, Forecaster.horizon_dates. simpl.
  change (map ?g ?l) with (g <$> l).
  rewrite !list_lookup_imap, !list_lookup_fmap, lookup_seq_lt by exact Hi.
  auto.
Qed.

(** C2, amended.  For every forecast the forecaster returns, the dates,
    predicted_demand, confidence_lower and confidence_upper arrays all have
    the requested number of entries, the dates are the consecutive days
    after today, and at every position of the dates the three series have an
    entry (the index is in bounds).  At a position where the predicted
    demand is not negative, and for a width factor k that is not negative,
    confidence_lower <= predicted_demand <= confidence_upper.  No predicted
    demand is negative when the fitted demand is non-negative today and does
    not fall, festivals multiply demand by at least one and the payday boost
    is at least -1. *)
Theorem forecast_lengths_and_bounds (e : Forecaster.Env) (horizon_days : Z)
    (r : Api.ForecastResult) :
  Forecaster.forecast e horizon_days = inr r ->
  Z.of_nat (length (Api.dates r)) = horizon_days /\
  length (Api.predicted_demand r) = length (Api.dates r) /\
  length (Api.confidence_lower r) = length (Api.dates r) /\
  length (Api.confidence_upper r) = length (Api.dates r) /\
  (forall i, i < length (Api.dates r) ->
     Api.dates r !! i = Some (Forecaster.today e + 1 + Z.of_nat i)%Z /\
     exists p l u,
       Api.predicted_demand r !! i = Some p /\
       Api.confidence_lower r !! i = Some l /\
       Api.confidence_upper r !! i = Some u /\
       ((0 <= Forecaster.k e)%Q -> (0 <= p)%Q -> (l <= p)%Q /\ (p <= u)%Q)) /\
  (Forecaster.steady e -> Forall (fun p => (0 <= p)%Q) (Api.predicted_demand r)).
Proof.
  intros Hr. unfold Forecaster.forecast in Hr.
  destruct (Forecaster.supported horizon_days) eqn:Hs; [| discriminate].
  injection Hr as <-.
  destruct (build_lengths e (Z.to_nat horizon_days)) as (Hd & Hp & Hl & Hu).
  assert (Hpos : (0 <= horizon_days)%Z).
  { unfold Forecaster.supported in Hs.
    destruct (Z.eqb_spec horizon_days 7); [lia |].
    destruct (Z.eqb_spec horizon_days 14); [lia |].
    destruct (Z.eqb_spec horizon_days 30); [lia | discriminate]. }
  split; [rewrite Hd; lia |].
  split; [congruence |]. split; [congruence |]. split; [congruence |].
  split.
  - intros i Hi. rewrite Hd in Hi.
    split; [apply build_dates, Hi |].
    destruct (build_entries e (Z.to_nat horizon_days) i Hi) as (p & Hpv & Hpi & Hli & Hui).
    exists p, (Forecaster.lower_at e i p), (Forecaster.upper_at e i p).
    split; [exact Hpi |]. split; [exact Hli |]. split; [exact Hui |].
    intros Hk Hp0.
    destruct (interval_contains e i p Hk Hp0) as (Hlo & Hup & _).
    split; assumption.
  - intros He. apply Forall_lookup. intros i x Hx.
    assert (Hi : i < Z.to_nat horizon_days).
    { rewrite <- Hp. apply lookup_lt_Some in Hx. exact Hx. }
    destruct (build_entries e (Z.to_nat horizon_days) i Hi) as (p & Hpv & Hpi & _).
    rewrite Hpi in Hx. injection Hx as <-. rewrite Hpv.
    apply predicted_nonneg; [exact He | lia].
Qed.

(** C2, as stated, fails for a product whose demand falls: with a fitted
    demand of 10 today and a slope of -1 per day, the prediction for the
    eleventh day of a 14-day forecast is negative; the lower bound, floored
    at 0, is above it, and the upper bound is below it. *)
Lemma declining_demand_outside_bounds :
  exists r p l u,
    Forecaster.forecast Samples.declining_env 14 = inr r /\
    Api.predicted_demand r !! 10 = Some p /\
    Api.confidence_lower r !! 10 = Some l /\
    Api.confidence_upper r !! 10 = Some u /\
    (p == -1)%Q /\ (l == 0)%Q /\ (u < p)%Q /\
    ~ (l <= p)%Q /\ ~ (p <= u)%Q.
Proof.
  eexists _, _, _, _.
  split; [reflexivity |].
  split; [vm_compute; reflexivity |].
  split; [vm_compute; reflexivity |].
  split; [vm_compute; reflexivity |].
  split; [reflexivity |].
  split; [reflexivity |].
  split; [reflexivity |].
  split; intros H; vm_compute in H; apply H; reflexivity.
Qed.

(** On the sample inputs no predicted demand is negative. *)
Lemma sample_env_steady : Forecaster.steady (Samples.env 10).
Proof.
  constructor; simpl.
  - discriminate.
  - discriminate.
  - lia.
  - discriminate.
  - repeat constructor. discriminate.
Defined.

Lemma forecast_lengths_and_bounds_witness :
  length (Api.dates Samples.busy_forecast) = 7 /\
  length (Api.confidence_upper Samples.busy_forecast) =
    length (Api.dates Samples.busy_forecast) /\
  Forall (fun p => (0 <= p)%Q) (Api.predicted_demand Samples.busy_forecast).
Proof.
  destruct (forecast_lengths_and_bounds (Samples.env 10) 7 Samples.busy_forecast eq_refl)
    as (Hd & _ & _ & Hu & _ & Hn).
  split; [lia |]. split; [exact Hu |].
  apply Hn, sample_env_steady.
Defined.

(** * Further properties of the components *)

(** ** InventoryTable: day counts and stock levels *)

(** X1.  The day count of an item is the number of days from today's
    midnight to the expiry, rounded up: it is the least number of whole days
    that reaches the expiry.  In particular the expiry cell reads Expired
    exactly when the expiry is not after today's midnight. *)
Theorem days_until_expiry_is_ceiling (today expiry : Z) :
  ((InventoryTable.getDaysUntilExpiry today expiry - 1) * InventoryTable.ms_per_day
     < expiry - today)%Z /\
  (expiry - today
     <= InventoryTable.getDaysUntilExpiry today expiry * InventoryTable.ms_per_day)%Z /\
  (InventoryTable.expiry_cell (InventoryTable.getDaysUntilExpiry today expiry) = "Expired"
   <-> (expiry <= today)%Z).
Proof.
  unfold InventoryTable.getDaysUntilExpiry, InventoryTable.ceil_div.
  change InventoryTable.ms_per_day with 86400000%Z.
  pose proof (Z.div_mod (- (expiry - today)) 86400000 ltac:(lia)) as Hdiv.
  pose proof (Z.mod_pos_bound (- (expiry - today)) 86400000 ltac:(lia)) as Hmod.
  set (q := (- (expiry - today) / 86400000)%Z) in *.
  split; [lia |]. split; [lia |].
  unfold InventoryTable.expiry_cell.
  destruct (Z.leb_spec (- q) 0) as [Hle | Hgt].
  - split; [intros _; lia | reflexivity].
  - split; [| lia].
    intros Hcell. now apply template_append_not_Expired in Hcell.
Qed.

(** X2.  A later expiry never gives a smaller day count, so sorting by day
    count agrees with the order of the expiry dates. *)
Theorem days_until_expiry_monotone (today expiry1 expiry2 : Z) :
  (expiry1 <= expiry2)%Z ->
  (InventoryTable.getDaysUntilExpiry today expiry1
     <= InventoryTable.getDaysUntilExpiry today expiry2)%Z.
Proof.
  intros Hle. unfold InventoryTable.getDaysUntilExpiry, InventoryTable.ceil_div.
  change InventoryTable.ms_per_day with 86400000%Z.
  apply Z.opp_le_mono. rewrite !Z.opp_involutive.
  apply Z.div_le_mono; lia.
Qed.

Lemma days_until_expiry_monotone_witness :
  (InventoryTable.getDaysUntilExpiry 0 1 <= InventoryTable.getDaysUntilExpiry 0 86400001)%Z.
Proof. apply days_until_expiry_monotone. lia. Defined.

Lemma Qdiv_le_iff (c r t : Q) :
  (0 < r)%Q -> (c / r <= t <-> c <= t * r)%Q.
Proof.
  intros Hr. split; intros H.
  - apply (Qmult_le_r _ _ r Hr) in H.
    rewrite Qmult_comm, Qmult_div_r in H by lra. exact H.
  - apply Qle_shift_div_r; assumption.
Qed.

Lemma ratio_le_bool (c r t : Q) :
  (0 < r)%Q ->
  Js.le (Js.div (Js.Fin c) (Js.Fin r)) (Js.Fin t) = Qle_bool c (t * r).
Proof.
  intros Hr. simpl.
  destruct (Qeq_bool r 0) eqn:Hz.
  - apply Qeq_bool_iff in Hz. lra.
  - simpl. apply eq_true_iff_eq. rewrite !Qle_bool_iff. apply Qdiv_le_iff, Hr.
Qed.

(** X3.  For a positive reorder point the stock label follows the ratio of
    stock to reorder point: Critical up to one half, Low up to one, Good up
    to two and High above. *)
Theorem stock_status_thresholds (current reorder : Q) :
  (0 < reorder)%Q ->
  (InventoryTable.label (InventoryTable.getStockStatus current reorder) = "Critical"
   <-> (2 * current <= reorder)%Q) /\
  (InventoryTable.label (InventoryTable.getStockStatus current reorder) = "Low"
   <-> (reorder < 2 * current)%Q /\ (current <= reorder)%Q) /\
  (InventoryTable.label (InventoryTable.getStockStatus current reorder) = "Good"
   <-> (reorder < current)%Q /\ (current <= 2 * reorder)%Q) /\
  (InventoryTable.label (InventoryTable.getStockStatus current reorder) = "High"
   <-> (2 * reorder < current)%Q).
Proof.
  intros Hr. unfold InventoryTable.getStockStatus. cbv zeta.
  rewrite !ratio_le_bool by exact Hr.
  destruct (Qle_bool current (0.5 * reorder)) eqn:H1;
    [apply Qle_bool_iff in H1 | apply not_true_iff_false in H1; rewrite Qle_bool_iff in H1];
  (destruct (Qle_bool current (1 * reorder)) eqn:H2;
    [apply Qle_bool_iff in H2 | apply not_true_iff_false in H2; rewrite Qle_bool_iff in H2]);
  (destruct (Qle_bool current (2 * reorder)) eqn:H3;
    [apply Qle_bool_iff in H3 | apply not_true_iff_false in H3; rewrite Qle_bool_iff in H3]);
  simpl; repeat split; intros; try discriminate; try lra.
Qed.

Lemma stock_status_thresholds_witness :
  InventoryTable.label (InventoryTable.getStockStatus 5 20) = "Critical".
Proof.
  destruct (stock_status_thresholds 5 20) as (Hcritical & _); [reflexivity |].
  apply Hcritical. discriminate.
Defined.

(** X4.  With a reorder point of zero the ratio is not a finite number.  An
    item with no stock at all is labelled High: 0 / 0 is NaN, which passes
    no threshold test.  An item with stock is labelled High or Critical,
    the ratio being an infinity; it is never labelled Low or Good. *)
Theorem stock_status_zero_reorder (current reorder : Q) :
  (reorder == 0)%Q ->
  ((current == 0)%Q ->
   InventoryTable.label (InventoryTable.getStockStatus current reorder) = "High") /\
  (InventoryTable.label (InventoryTable.getStockStatus current reorder) = "High" \/
   InventoryTable.label (InventoryTable.getStockStatus current reorder) = "Critical").
Proof.
  intros Hr. unfold InventoryTable.getStockStatus. cbv zeta. simpl.
  apply Qeq_bool_iff in Hr. rewrite Hr.
  destruct (Qeq_bool current 0) eqn:Hc.
  - split; [reflexivity | left; reflexivity].
  - split.
    + intros Hz. apply Qeq_bool_iff in Hz. congruence.
    + destruct (Qle_bool 0 current); [left | right]; reflexivity.
Qed.

Lemma stock_status_zero_reorder_witness :
  InventoryTable.label (InventoryTable.getStockStatus 0 0) = "High".
Proof.
  destruct (stock_status_zero_reorder 0 0) as (Hhigh & _); [reflexivity |].
  apply Hhigh. reflexivity.
Defined.

(** ** InventoryTable: the rows of the table *)

Lemma insert_by_Permutation {A} (key : A -> Z) (x : A) (xs : list A) :
  Js.insert_by key x xs ≡ₚ x :: xs.
Proof.
  induction xs as [| y ys IH]; simpl; [reflexivity |].
  destruct (key x <=? key y)%Z; [reflexivity |].
  rewrite IH. apply Permutation_swap.
Qed.

Lemma sort_by_Permutation {A} (key : A -> Z) (xs : list A) :
  Js.sort_by key xs ≡ₚ xs.
Proof.
  induction xs as [| x xs IH]; simpl; [reflexivity |].
  unfold Js.sort_by in *. simpl. rewrite insert_by_Permutation, IH. reflexivity.
Qed.

Lemma insert_by_sorted {A} (key : A -> Z) (x : A) (xs : list A) :
  StronglySorted (fun a b => (key a <= key b)%Z) xs ->
  StronglySorted (fun a b => (key a <= key b)%Z) (Js.insert_by key x xs).
Proof.
  induction 1 as [| y ys Hs IH Hy]; simpl.
  - repeat constructor.
  - destruct (Z.leb_spec (key x) (key y)) as [Hle | Hgt].
    + constructor; [constructor; assumption |].
      constructor; [exact Hle |].
      eapply Forall_impl; [exact Hy |]. simpl. intros z Hz. lia.
    + constructor; [exact IH |].
      rewrite insert_by_Permutation. constructor; [lia | exact Hy].
Qed.

Lemma sort_by_sorted {A} (key : A -> Z) (xs : list A) :
  StronglySorted (fun a b => (key a <= key b)%Z) (Js.sort_by key xs).
Proof.
  induction xs as [| x xs IH]; [constructor |].
  unfold Js.sort_by in *. simpl. apply insert_by_sorted, IH.
Qed.

Lemma insert_by_stable {A} (key : A -> Z) (k : Z) (x : A) (xs : list A) :
  filter (fun y => key y = k) (Js.insert_by key x xs) =
  filter (fun y => key y = k) (x :: xs).
Proof.
  induction xs as [| y ys IH]; simpl; [reflexivity |].
  destruct (Z.leb_spec (key x) (key y)) as [Hle | Hgt]; [reflexivity |].
  rewrite (filter_cons _ y), IH, !filter_cons.
  destruct (decide (key y = k)), (decide (key x = k)); try reflexivity. lia.
Qed.

(** Elements with the same key keep their relative order. *)
Lemma sort_by_stable {A} (key : A -> Z) (k : Z) (xs : list A) :
  filter (fun y => key y = k) (Js.sort_by key xs) = filter (fun y => key y = k) xs.
Proof.
  induction xs as [| x xs IH]; [reflexivity |].
  unfold Js.sort_by in *. simpl.
  rewrite insert_by_stable, !filter_cons, IH. reflexivity.
Qed.

Lemma slice0_take {A} (xs : list A) (e : Z) :
  (0 <= e)%Z -> Js.slice0 xs e = take (Z.to_nat e) xs.
Proof.
  intros He. rewrite slice0_nonneg by exact He.
  destruct (Z.le_gt_cases e (Z.of_nat (length xs))) as [Hle | Hgt].
  - rewrite Z.min_l by exact Hle. reflexivity.
  - rewrite Z.min_r by lia. rewrite Nat2Z.id.
    rewrite !take_ge by lia. reflexivity.
Qed.

Lemma elem_of_filtered (filter_by : option Api.Category) (items : list Api.InventoryItem)
    (item : Api.InventoryItem) :
  item ∈ InventoryTable.filtered filter_by items <->
  item ∈ items /\ (forall c, filter_by = Some c -> Api.item_category item = c).
Proof.
  destruct filter_by as [c |]; simpl.
  - rewrite !list_elem_of_In, List.filter_In, bool_decide_eq_true.
    split.
    + intros [Hin Hc]. split; [exact Hin |]. intros c' [= <-]. exact Hc.
    + intros [Hin Hc]. split; [exact Hin | apply Hc; reflexivity].
  - split; [intros Hin; split; [exact Hin | discriminate] | tauto].
Qed.

(** X5.  Under the default sort key the full table shows exactly the items
    of the chosen category (all items for the entry "all"), each as often as
    it occurs, ordered by ascending day count; items with the same day count
    keep the order they had in the inventory. *)
Theorem inventory_rows_sorted (today : Z) (filter_by : option Api.Category)
    (items : list Api.InventoryItem) :
  InventoryTable.displayItems today filter_by false items
    ≡ₚ InventoryTable.filtered filter_by items /\
  (forall item,
     item ∈ InventoryTable.displayItems today filter_by false items <->
     item ∈ items /\ (forall c, filter_by = Some c -> Api.item_category item = c)) /\
  StronglySorted
    (fun a b => (InventoryTable.days_of today a <= InventoryTable.days_of today b)%Z)
    (InventoryTable.displayItems today filter_by false items) /\
  (forall d,
     filter (fun item => InventoryTable.days_of today item = d)
            (InventoryTable.displayItems today filter_by false items) =
     filter (fun item => InventoryTable.days_of today item = d)
            (InventoryTable.filtered filter_by items)).
Proof.
  unfold InventoryTable.displayItems. cbv zeta.
  split; [apply sort_by_Permutation |].
  split; [| split].
  - intros item. rewrite sort_by_Permutation. apply elem_of_filtered.
  - apply sort_by_sorted.
  - intros d. apply sort_by_stable.
Qed.

(** X6.  The compact table shows the five items closest to expiry (all of
    them when there are at most five): its rows are the first five rows of
    the full table, no item left out has a smaller day count than a row
    shown, and, for the entry "all", the View all button is rendered exactly
    when some item is left out. *)
Theorem compact_rows_soonest (today : Z) (filter_by : option Api.Category)
    (items : list Api.InventoryItem) :
  InventoryTable.displayItems today filter_by true items =
    take 5 (InventoryTable.displayItems today filter_by false items) /\
  length (InventoryTable.displayItems today filter_by true items) =
    Nat.min 5 (length (InventoryTable.filtered filter_by items)) /\
  (forall shown hidden,
     shown ∈ InventoryTable.displayItems today filter_by true items ->
     hidden ∈ drop 5 (InventoryTable.displayItems today filter_by false items) ->
     (InventoryTable.days_of today shown <= InventoryTable.days_of today hidden)%Z) /\
  (InventoryTable.view_all true items = true <->
   length (InventoryTable.displayItems today None true items) < length items).
Proof.
  assert (Hrows : forall f,
            InventoryTable.displayItems today f true items =
            take 5 (InventoryTable.displayItems today f false items)).
  { intros f. unfold InventoryTable.displayItems. cbv zeta.
    rewrite slice0_take by lia. reflexivity. }
  assert (Hlen : forall f,
            length (InventoryTable.displayItems today f true items) =
            Nat.min 5 (length (InventoryTable.filtered f items))).
  { intros f. rewrite Hrows, length_take. f_equal.
    unfold InventoryTable.displayItems. cbv zeta.
    apply Permutation_length, sort_by_Permutation. }
  split; [apply Hrows |]. split; [apply Hlen |]. split.
  - intros shown hidden Hshown Hhidden. rewrite Hrows in Hshown.
    pose proof (sort_by_sorted (InventoryTable.days_of today)
                  (InventoryTable.filtered filter_by items)) as Hsorted.
    unfold InventoryTable.displayItems in Hshown, Hhidden. cbv zeta in Hshown, Hhidden.
    rewrite <- (take_drop 5) in Hsorted.
    exact (StronglySorted_app_1_elem_of _ _ _ _ _ Hsorted Hshown Hhidden).
  - rewrite Hlen. unfold InventoryTable.view_all.
    change (InventoryTable.filtered None items) with items.
    rewrite andb_true_l, Nat.ltb_lt. lia.
Qed.

(** ** ForecastChart: the forecast shown and the selector *)

Lemma pick_elem (productId : option string) (data : list Api.ForecastResult)
    (f : Api.ForecastResult) :
  ForecastChart.pick productId data = Some f -> f ∈ data.
Proof.
  unfold ForecastChart.pick. intros Hpick.
  assert (Hhead : head data = Some f -> f ∈ data).
  { destruct data as [| g data]; simpl; [discriminate |].
    intros [= ->]. apply elem_of_cons. auto. }
  destruct productId as [pid |]; [| auto].
  destruct (Js.truthy_string pid); [| auto].
  apply List.find_some in Hpick as [Hin _]. apply list_elem_of_In, Hin.
Qed.

Lemma handleForecastChange_cases (pid : string) (st : ForecastChart.State) :
  ForecastChart.handleForecastChange pid st = st \/
  exists f,
    f ∈ ForecastChart.allForecasts st /\ Api.product_id f = pid /\
    ForecastChart.handleForecastChange pid st =
      {| ForecastChart.forecast := Some f;
         ForecastChart.loading := ForecastChart.loading st;
         ForecastChart.selectedForecast := pid;
         ForecastChart.allForecasts := ForecastChart.allForecasts st |}.
Proof.
  unfold ForecastChart.handleForecastChange.
  destruct (List.find _ _) as [f |] eqn:Hfind; [right | left; reflexivity].
  apply List.find_some in Hfind as [Hin Hid].
  apply bool_decide_eq_true in Hid.
  exists f. split; [apply list_elem_of_In, Hin |]. split; [exact Hid | reflexivity].
Qed.

Lemma changes_keep_consistent (changes : list string) :
  forall st : ForecastChart.State,
    (forall f, ForecastChart.forecast st = Some f ->
       f ∈ ForecastChart.allForecasts st /\
       ForecastChart.selectedForecast st = Api.product_id f) ->
    forall f,
      ForecastChart.forecast
        (fold_left (fun st pid => ForecastChart.handleForecastChange pid st) changes st)
        = Some f ->
      f ∈ ForecastChart.allForecasts
            (fold_left (fun st pid => ForecastChart.handleForecastChange pid st) changes st) /\
      ForecastChart.selectedForecast
        (fold_left (fun st pid => ForecastChart.handleForecastChange pid st) changes st)
        = Api.product_id f.
Proof.
  induction changes as [| pid changes IH]; intros st Hst; simpl; [exact Hst |].
  apply IH.
  destruct (handleForecastChange_cases pid st) as [-> | (g & Hin & Hid & ->)];
    [exact Hst |].
  simpl. intros f [= <-]. auto.
Qed.

(** X7.  Once the list of forecasts has been requested, and whatever the
    user then picks in the selector, the forecast on display is one of the
    forecasts received and the selector shows its product id. *)
Theorem forecast_selection_consistent (productId : option string)
    (o : ForecastChart.FetchOutcome) (changes : list string) (f : Api.ForecastResult) :
  ForecastChart.forecast
    (fold_left (fun st pid => ForecastChart.handleForecastChange pid st) changes
       (ForecastChart.fetched productId o (ForecastChart.initial productId None)))
    = Some f ->
  f ∈ ForecastChart.allForecasts
        (fold_left (fun st pid => ForecastChart.handleForecastChange pid st) changes
           (ForecastChart.fetched productId o (ForecastChart.initial productId None))) /\
  ForecastChart.selectedForecast
    (fold_left (fun st pid => ForecastChart.handleForecastChange pid st) changes
       (ForecastChart.fetched productId o (ForecastChart.initial productId None)))
    = Api.product_id f.
Proof.
  apply changes_keep_consistent. clear f.
  destruct o as [data |]; simpl.
  - destruct (ForecastChart.pick productId data) as [g |] eqn:Hpick; simpl.
    + intros f [= <-]. split; [eapply pick_elem, Hpick | reflexivity].
    + discriminate.
  - discriminate.
Qed.

(** X8.  When a product id is given and no forecast received carries it,
    no forecast is displayed although the list was loaded (the chart reads
    "No forecast data available"), and choosing that id in the selector
    changes nothing. *)
Theorem forecast_for_missing_product (pid : string) (data : list Api.ForecastResult)
    (st : ForecastChart.State) :
  pid <> "" ->
  Forall (fun f => Api.product_id f <> pid) data ->
  ForecastChart.forecast
    (ForecastChart.fetched (Some pid) (ForecastChart.FetchOk data)
       (ForecastChart.initial (Some pid) None)) = None /\
  ForecastChart.loading
    (ForecastChart.fetched (Some pid) (ForecastChart.FetchOk data)
       (ForecastChart.initial (Some pid) None)) = false /\
  ForecastChart.allForecasts
    (ForecastChart.fetched (Some pid) (ForecastChart.FetchOk data)
       (ForecastChart.initial (Some pid) None)) = data /\
  (ForecastChart.allForecasts st = data ->
   ForecastChart.handleForecastChange pid st = st).
Proof.
  intros Hpid Hnone.
  assert (Hfind : List.find (fun f => bool_decide (Api.product_id f = pid)) data = None).
  { destruct (List.find _ data) as [f |] eqn:Hf; [| reflexivity].
    apply List.find_some in Hf as [Hin Hid]. apply bool_decide_eq_true in Hid.
    rewrite Forall_forall in Hnone. apply list_elem_of_In in Hin.
    now apply Hnone in Hin. }
  assert (Htruthy : Js.truthy_string pid = true).
  { unfold Js.truthy_string. destruct (String.eqb_spec pid ""); [contradiction | reflexivity]. }
  unfold ForecastChart.fetched, ForecastChart.pick. rewrite Htruthy, Hfind. simpl.
  repeat split.
  intros Hall. unfold ForecastChart.handleForecastChange. rewrite Hall, Hfind. reflexivity.
Qed.

Lemma forecast_for_missing_product_witness :
  ForecastChart.forecast
    (ForecastChart.fetched (Some "P9") (ForecastChart.FetchOk [Samples.flat_forecast])
       (ForecastChart.initial (Some "P9") None)) = None.
Proof.
  apply (forecast_for_missing_product "P9" [Samples.flat_forecast]
           (ForecastChart.initial (Some "P9") None)).
  - discriminate.
  - repeat constructor. discriminate.
Defined.

(** ** ForecastChart: the summary and the axes *)

Lemma Math_max_nonempty (xs : list Q) :
  xs <> [] ->
  exists m, Js.Math_max (map Js.Fin xs) = Js.Fin m /\ m ∈ xs /\
            Forall (fun x => (x <= m)%Q) xs.
Proof.
  induction xs as [| x xs IH]; [congruence |]. intros _.
  destruct xs as [| y ys].
  - exists x. split; [reflexivity |]. split; [apply elem_of_cons; auto |].
    constructor; [apply Qle_refl | constructor].
  - destruct IH as (m & Hm & Hin & Hall); [discriminate |].
    unfold Js.Math_max in *. cbn [map fold_right] in *. rewrite Hm. cbn [Js.max2].
    destruct (Qle_bool x m) eqn:Hxm.
    + apply Qle_bool_iff in Hxm. exists m.
      split; [reflexivity |]. split; [apply elem_of_cons; auto |].
      constructor; assumption.
    + apply not_true_iff_false in Hxm. rewrite Qle_bool_iff in Hxm.
      exists x. split; [reflexivity |]. split; [apply elem_of_cons; auto |].
      constructor; [apply Qle_refl |].
      eapply Forall_impl; [exact Hall |]. simpl. intros z Hz. lra.
Qed.

(** X9.  The Peak Day figure of the summary is the largest predicted
    demand: for a forecast with at least one predicted day it is one of the
    predicted values and no predicted value exceeds it.  For a forecast with
    no predicted day the peak is -Infinity and the daily average, 0 / 0, is
    NaN. *)
Theorem peak_day_is_largest (f : Api.ForecastResult) :
  (Api.predicted_demand f <> [] ->
   exists peak,
     ForecastChart.peak_day f = Js.Fin peak /\
     peak ∈ Api.predicted_demand f /\
     Forall (fun p => (p <= peak)%Q) (Api.predicted_demand f)) /\
  (Api.predicted_demand f = [] ->
   ForecastChart.daily_average f = Js.NaN /\ ForecastChart.peak_day f = Js.NegInf).
Proof.
  split.
  - intros Hne.
    destruct (Math_max_nonempty _ Hne) as (m & Hm & Hin & Hall).
    exists m. unfold ForecastChart.peak_day. auto.
  - intros Hnil.
    unfold ForecastChart.daily_average, ForecastChart.peak_day, ForecastChart.total_predicted.
    rewrite Hnil. split; reflexivity.
Qed.

Lemma peak_day_is_largest_witness :
  exists peak,
    ForecastChart.peak_day Samples.busy_forecast = Js.Fin peak /\
    peak ∈ Api.predicted_demand Samples.busy_forecast.
Proof.
  destruct (peak_day_is_largest Samples.busy_forecast) as [Hsome _].
  destruct Hsome as (peak & Hp & Hin & _); [discriminate |].
  exists peak. auto.
Defined.

Lemma forecast_selection_consistent_witness :
  Samples.flat_forecast ∈ [Samples.flat_forecast; Samples.busy_forecast] /\
  ForecastChart.selectedForecast
    (fold_left (fun st pid => ForecastChart.handleForecastChange pid st) ["P1"]
       (ForecastChart.fetched None
          (ForecastChart.FetchOk [Samples.flat_forecast; Samples.busy_forecast])
          (ForecastChart.initial None None))) = "P1".
Proof.
  apply (forecast_selection_consistent None
           (ForecastChart.FetchOk [Samples.flat_forecast; Samples.busy_forecast])
           ["P1"] Samples.flat_forecast).
  reflexivity.
Defined.

Lemma snd_imap_pair {A} (xs : list A) : (imap pair xs).*2 = xs.
Proof.
  rewrite fmap_imap.
  rewrite (imap_ext _ (const id)) by reflexivity.
  rewrite imap_const. apply list_fmap_id.
Qed.

(** X10.  The labels of the x axis are dates of the forecast in their
    original order, and they always start with the first date and end with
    the last one (there is no label for a forecast without dates). *)
Theorem x_axis_labels_first_last (f : Api.ForecastResult) :
  ForecastChart.x_axis_labels f `sublist_of` Api.dates f /\
  head (ForecastChart.x_axis_labels f) = head (Api.dates f) /\
  last (ForecastChart.x_axis_labels f) = last (Api.dates f).
Proof.
  unfold ForecastChart.x_axis_labels.
  split; [| split].
  - rewrite <- (snd_imap_pair (Api.dates f)) at 2.
    apply fmap_sublist, sublist_filter.
  - destruct (Api.dates f) as [| d ds]; [reflexivity |].
    rewrite imap_cons, filter_cons_True by (left; reflexivity). reflexivity.
  - destruct (Api.dates f) as [| d ds] using rev_ind; [reflexivity |].
    rewrite imap_app, filter_app, fmap_app. cbn [imap].
    rewrite filter_singleton_True.
    + cbn [fmap list_fmap snd]. rewrite !last_snoc. reflexivity.
    + exact [].
    + right. cbn [fst]. rewrite length_app. simpl. lia.
Qed.

(** ** Bars as percentages of the maximum *)

Lemma Qdiv_ge_iff (c r t : Q) :
  (0 < r)%Q -> (t <= c / r <-> t * r <= c)%Q.
Proof.
  intros Hr. split; intros H.
  - apply (Qmult_le_r _ _ r Hr) in H.
    rewrite (Qmult_comm (c / r)), Qmult_div_r in H by lra. exact H.
  - apply Qle_shift_div_l; assumption.
Qed.

Lemma percent_le (a b t : Q) :
  (0 < t)%Q -> (a / t * 100 <= b / t * 100 <-> a <= b)%Q.
Proof.
  intros Ht.
  assert (Hiff : (a / t <= b / t <-> a <= b)%Q).
  { rewrite Qdiv_le_iff by exact Ht.
    rewrite (Qmult_comm (b / t)), Qmult_div_r by lra. reflexivity. }
  rewrite <- Hiff. split; intros H; lra.
Qed.

Lemma percent_of_top (t : Q) : (0 < t)%Q -> (t / t * 100 == 100)%Q.
Proof. intros Ht. field. lra. Qed.

Lemma percent_of_zero (t : Q) : (0 / t * 100 == 0)%Q.
Proof. unfold Qdiv. lra. Qed.

Lemma percent_of_max_finite (f : Api.ForecastResult) (top x : Q) :
  ForecastChart.maxDemand f = Js.Fin top -> (0 < top)%Q ->
  ForecastChart.percent_of_max f (Js.Fin x) = Js.Fin (x / top * 100).
Proof.
  intros Hmax Htop. unfold ForecastChart.percent_of_max. rewrite Hmax. simpl.
  destruct (Qeq_bool top 0) eqn:Hz; [apply Qeq_bool_iff in Hz; lra | reflexivity].
Qed.

(** X11.  For a forecast whose three series are as long as the dates, with
    0 <= lower <= predicted <= upper at every position and a non-zero
    maximum, no bar leaves the chart and the interval encloses the demand:
    the heights are finite and 0 <= lowerHeight <= height <= upperHeight <=
    100 for every bar. *)
Theorem chart_bars_within_chart (f : Api.ForecastResult) :
  length (Api.predicted_demand f) = length (Api.dates f) ->
  length (Api.confidence_lower f) = length (Api.dates f) ->
  length (Api.confidence_upper f) = length (Api.dates f) ->
  (forall i p l u,
     Api.predicted_demand f !! i = Some p ->
     Api.confidence_lower f !! i = Some l ->
     Api.confidence_upper f !! i = Some u ->
     (0 <= l)%Q /\ (l <= p)%Q /\ (p <= u)%Q) ->
  Js.is_zero (ForecastChart.maxDemand f) = false ->
  Forall (fun b => exists h lh uh,
            ForecastChart.height b = Js.Fin h /\
            ForecastChart.lowerHeight b = Js.Fin lh /\
            ForecastChart.upperHeight b = Js.Fin uh /\
            (0 <= lh)%Q /\ (lh <= h)%Q /\ (h <= uh)%Q /\ (uh <= 100)%Q)
         (ForecastChart.bars f).
Proof.
  intros Hp Hl Hu Hord Hz. unfold ForecastChart.bars.
  apply List.Forall_map, Forall_forall. intros i Hi.
  apply elem_of_seq in Hi. cbn [ForecastChart.height ForecastChart.lowerHeight
                                 ForecastChart.upperHeight].
  destruct (lookup_lt_is_Some_2 (Api.predicted_demand f) i) as [p Hpi]; [lia |].
  destruct (lookup_lt_is_Some_2 (Api.confidence_lower f) i) as [l Hli]; [lia |].
  destruct (lookup_lt_is_Some_2 (Api.confidence_upper f) i) as [u Hui]; [lia |].
  destruct (Hord i p l u Hpi Hli Hui) as (Hl0 & Hlp & Hpu).
  destruct (Math_max_nonempty (Api.confidence_upper f)) as (top & Htop & _ & Hall).
  { intros Hnil. rewrite Hnil in Hui. discriminate. }
  fold (ForecastChart.maxDemand f) in Htop.
  assert (Hu_top : (u <= top)%Q).
  { rewrite Forall_forall in Hall. apply Hall. eapply list_elem_of_lookup_2, Hui. }
  assert (Hpos : (0 < top)%Q).
  { rewrite Htop in Hz. simpl in Hz.
    apply not_true_iff_false in Hz. rewrite Qeq_bool_iff in Hz.
    destruct (Qlt_le_dec 0 top) as [Hlt | Hle]; [exact Hlt |].
    exfalso. apply Hz. apply Qle_antisym; lra. }
  unfold Js.operand. rewrite Hpi, Hli, Hui.
  rewrite !(percent_of_max_finite f top) by assumption.
  eexists _, _, _. repeat (split; [reflexivity |]).
  split; [| split; [| split]].
  - apply Qle_trans with (y := (0 / top * 100)%Q).
    + rewrite percent_of_zero. apply Qle_refl.
    + apply percent_le; assumption.
  - apply percent_le; assumption.
  - apply percent_le; assumption.
  - apply Qle_trans with (y := (top / top * 100)%Q).
    + apply percent_le; assumption.
    + rewrite percent_of_top by exact Hpos. apply Qle_refl.
Qed.

Lemma sample_series_ordered :
  forall i p l u,
    Api.predicted_demand Samples.busy_forecast !! i = Some p ->
    Api.confidence_lower Samples.busy_forecast !! i = Some l ->
    Api.confidence_upper Samples.busy_forecast !! i = Some u ->
    (0 <= l)%Q /\ (l <= p)%Q /\ (p <= u)%Q.
Proof.
  intros i p l u Hp Hl Hu.
  assert (Hi : i < 7).
  { apply lookup_lt_Some in Hp. exact Hp. }
  do 7 (destruct i as [| i];
        [vm_compute in Hp, Hl, Hu;
         injection Hp as <-; injection Hl as <-; injection Hu as <-;
         repeat split; discriminate |]).
  lia.
Defined.

Lemma chart_bars_within_chart_witness :
  Forall (fun b => exists h lh uh,
            ForecastChart.height b = Js.Fin h /\
            ForecastChart.lowerHeight b = Js.Fin lh /\
            ForecastChart.upperHeight b = Js.Fin uh /\
            (0 <= lh)%Q /\ (lh <= h)%Q /\ (h <= uh)%Q /\ (uh <= 100)%Q)
         (ForecastChart.bars Samples.busy_forecast).
Proof.
  apply chart_bars_within_chart; try reflexivity.
  apply sample_series_ordered.
Defined.

(** X12.  For a non-empty monthly trend with non-negative waste figures and
    a non-zero maximum, the waste bars are scaled to the month with the most
    waste: every waste height is a finite number between 0 and 100 and that
    month's bar is at 100.  The saved bars use the same scale, so the height
    of a saved bar is at most 100 exactly when the month's saved_kg does not
    exceed the largest waste_kg. *)
Theorem trend_bars_scale (m : Api.ESGMetrics) :
  Api.monthly_trend m <> [] ->
  Forall (fun mo => (0 <= Api.waste_kg mo)%Q) (Api.monthly_trend m) ->
  Js.is_zero (ESGScorecard.maxWaste (Api.monthly_trend m)) = false ->
  exists top,
    ESGScorecard.maxWaste (Api.monthly_trend m) = Js.Fin top /\
    (0 < top)%Q /\
    (exists mo, mo ∈ Api.monthly_trend m /\ Api.waste_kg mo = top) /\
    Forall2 (fun mo b => exists w,
               ESGScorecard.wasteHeight b = Js.Fin w /\
               (0 <= w)%Q /\ (w <= 100)%Q /\
               (Api.waste_kg mo = top -> (w == 100)%Q) /\
               (Js.le (ESGScorecard.savedHeight b) (Js.Fin 100) = true <->
                (Api.saved_kg mo <= top)%Q))
            (Api.monthly_trend m) (ESGScorecard.trend_bars m).
Proof.
  intros Hne Hwaste Hz.
  destruct (Math_max_nonempty (Api.waste_kg <$> Api.monthly_trend m))
    as (top & Htop & Hin & Hall).
  { destruct (Api.monthly_trend m); [congruence | discriminate]. }
  assert (Hmax : ESGScorecard.maxWaste (Api.monthly_trend m) = Js.Fin top).
  { unfold ESGScorecard.maxWaste. rewrite <- Htop.
    change (Api.waste_kg <$> Api.monthly_trend m)
      with (map Api.waste_kg (Api.monthly_trend m)).
    rewrite map_map. reflexivity. }
  apply list_elem_of_fmap in Hin as (mo_top & Hmo_top & Hmo_in).
  assert (Hpos : (0 < top)%Q).
  { rewrite Hmax in Hz. simpl in Hz.
    apply not_true_iff_false in Hz. rewrite Qeq_bool_iff in Hz.
    rewrite Forall_forall in Hwaste. specialize (Hwaste mo_top Hmo_in).
    rewrite <- Hmo_top in Hwaste.
    destruct (Qlt_le_dec 0 top) as [Hlt | Hle]; [exact Hlt |].
    exfalso. apply Hz. apply Qle_antisym; lra. }
  exists top. split; [exact Hmax |]. split; [exact Hpos |].
  split; [exists mo_top; auto |].
  unfold ESGScorecard.trend_bars.
  change (map ?g ?l) with (g <$> l).
  apply Forall2_fmap_r, Forall_Forall2_diag, Forall_forall.
  intros mo Hmo. cbn [ESGScorecard.wasteHeight ESGScorecard.savedHeight].
  rewrite Hmax. simpl.
  destruct (Qeq_bool top 0) eqn:Hzero; [apply Qeq_bool_iff in Hzero; lra |].
  eexists. split; [reflexivity |].
  assert (Hle_top : (Api.waste_kg mo <= top)%Q).
  { rewrite Forall_forall in Hall. apply Hall.
    apply list_elem_of_fmap. exists mo. auto. }
  rewrite Forall_forall in Hwaste. specialize (Hwaste mo Hmo).
  split; [| split; [| split]].
  - apply Qle_trans with (y := (0 / top * 100)%Q).
    + rewrite percent_of_zero. apply Qle_refl.
    + apply percent_le; assumption.
  - apply Qle_trans with (y := (top / top * 100)%Q).
    + apply percent_le; assumption.
    + rewrite percent_of_top by exact Hpos. apply Qle_refl.
  - intros ->. apply percent_of_top, Hpos.
  - cbn [Js.mul Js.le]. rewrite Qle_bool_iff.
    rewrite <- (percent_le (Api.saved_kg mo) top top Hpos).
    rewrite (percent_of_top top Hpos). reflexivity.
Qed.

Lemma trend_bars_scale_witness :
  exists top,
    ESGScorecard.maxWaste Samples.usual_months = Js.Fin top /\ (0 < top)%Q.
Proof.
  destruct (trend_bars_scale (Samples.metrics_with_trend Samples.usual_months))
    as (top & Hmax & Hpos & _).
  - discriminate.
  - repeat constructor; discriminate.
  - reflexivity.
  - exists top. split; [exact Hmax | exact Hpos].
Defined.

(** ** SustainabilityAlerts: the sold set and the summary *)

(** X13.  After any sequence of runs of the Mark as Sold handler, the sold
    set holds exactly the ids it held before and the ids of the alerts whose
    request was answered with an ok response: ids are never removed, and an
    alert whose request threw or was refused is never added.  The alerts
    themselves are untouched and no alert is left marked as being saved. *)
Theorem sold_set_after_handlers
    (calls : list (Api.SustainabilityAlert * SustainabilityAlerts.Reply))
    (st : SustainabilityAlerts.State) (i : string) :
  (i ∈ SustainabilityAlerts.soldAlerts (SustainabilityAlerts.run_handlers calls st) <->
   i ∈ SustainabilityAlerts.soldAlerts st \/
   exists alert, (alert, SustainabilityAlerts.Responded true) ∈ calls /\ Api.id alert = i) /\
  SustainabilityAlerts.alerts (SustainabilityAlerts.run_handlers calls st) =
    SustainabilityAlerts.alerts st /\
  (calls <> [] ->
   SustainabilityAlerts.markingId (SustainabilityAlerts.run_handlers calls st) = None).
Proof.
  unfold SustainabilityAlerts.run_handlers.
  revert st. induction calls as [| [alert r] calls IH]; intros st; simpl.
  - split; [| split; [reflexivity | congruence]].
    split; [auto |]. intros [H | (a & Ha & _)]; [exact H |].
    now apply elem_of_nil in Ha.
  - destruct (IH (SustainabilityAlerts.handleMarkAsSold alert r st)) as (IHs & IHa & IHm).
    split; [| split].
    + rewrite IHs, handleMarkAsSold_sold. split.
      * intros [Hi | (a & Ha & Hid)].
        -- destruct r as [| [|]]; auto.
           apply elem_of_union in Hi as [Hi | Hi]; [auto |].
           apply elem_of_singleton in Hi. right. exists alert.
           split; [apply elem_of_cons; auto | congruence].
        -- right. exists a. split; [apply elem_of_cons; auto | exact Hid].
      * intros [Hi | (a & Ha & Hid)].
        -- left. destruct r as [| [|]]; auto. apply elem_of_union. auto.
        -- apply elem_of_cons in Ha as [[= -> <-] | Ha].
           ++ left. apply elem_of_union. right. apply elem_of_singleton. congruence.
           ++ right. exists a. auto.
    + rewrite IHa. reflexivity.
    + intros _. destruct calls as [| c calls]; [reflexivity |].
      apply IHm. discriminate.
Qed.











(** ** FestivalBanner: what is shown after the request *)

(** X16.  Once the request for the festivals has settled, the banner is
    absent exactly when the request failed or returned no festival.
    Otherwise it is the banner of the first festival returned: at most two
    festivals are kept, and nothing after the first one has any effect on
    what is shown. *)
Theorem festival_banner_after_fetch (o : FestivalBanner.FetchOutcome) :
  (FestivalBanner.banner_after o = None <->
   o = FestivalBanner.FetchFailed \/ o = FestivalBanner.FetchOk []) /\
  length (FestivalBanner.festivals_after o) <= 2 /\
  (forall f rest,
     o = FestivalBanner.FetchOk (f :: rest) ->
     FestivalBanner.festivals_after o = f :: take 1 rest /\
     FestivalBanner.banner_after o =
       FestivalBanner.banner_after (FestivalBanner.FetchOk [f]) /\
     FestivalBanner.title <$> FestivalBanner.banner_after o = Some (Api.name f)).
Proof.
  assert (Hkeep : forall data, FestivalBanner.festivals_state data = take 2 data).
  { intros data. unfold FestivalBanner.festivals_state. apply (slice0_take data 2). lia. }
  unfold FestivalBanner.banner_after, FestivalBanner.festivals_after.
  split; [| split].
  - destruct o as [[| f rest] |]; rewrite ?Hkeep; simpl.
    + split; auto.
    + split; [discriminate | intros [H | H]; discriminate].
    + split; auto.
  - destruct o as [data |]; [| simpl; lia].
    rewrite Hkeep, length_take. lia.
  - intros f rest ->. rewrite !Hkeep. simpl. auto.
Qed.

(** ** The forecasts page: a session *)

Lemma session_from (evs : list ForecastsPage.Event) :
  forall (st : ForecastsPage.State) (o : ForecastsPage.DaysOption),
    ForecastsPage.forecastDays st = Some (ForecastsPage.option_days o) ->
    ForecastsPage.forecastDays (fold_left ForecastsPage.step evs st) =
      Some (ForecastsPage.option_days
              (fold_left (fun o ev => match ev with
                                      | ForecastsPage.DaysChange o' => o'
                                      | ForecastsPage.Refresh => o
                                      end) evs o)) /\
    ForecastsPage.refreshKey (fold_left ForecastsPage.step evs st) =
      (ForecastsPage.refreshKey st + Z.of_nat (length evs))%Z.
Proof.
  induction evs as [| ev evs IH]; intros st o Hst; simpl fold_left.
  - split; [exact Hst | simpl; lia].
  - destruct ev as [| o'].
    + destruct (IH (ForecastsPage.step st ForecastsPage.Refresh) o Hst) as [Hd Hk].
      split; [exact Hd |]. rewrite Hk. simpl. lia.
    + destruct (IH (ForecastsPage.step st (ForecastsPage.DaysChange o')) o') as [Hd Hk].
      { destruct o'; reflexivity. }
      split; [exact Hd |]. rewrite Hk. simpl. lia.
Qed.

Lemma requests_from_length (evs : list ForecastsPage.Event) :
  forall st, length (ForecastsPage.requests_from st evs) = S (length evs).
Proof.
  induction evs as [| ev evs IH]; intros st; simpl; [reflexivity |].
  rewrite IH. reflexivity.
Qed.

(** X17.  On the forecasts page every event, a refresh as well as a change
    of horizon, gives the chart a new key, so the key counts the events and
    the chart is remounted (one request per event, after the first one).  The
    horizon in force is the entry chosen last, 14 days if none was chosen,
    and printed as text it is that entry's own value, so the select shows the
    entry chosen. *)
Theorem forecasts_page_session (evs : list ForecastsPage.Event) :
  ForecastsPage.refreshKey (ForecastsPage.run evs) = Z.of_nat (length evs) /\
  length (ForecastsPage.requests evs) = S (length evs) /\
  ForecastsPage.forecastDays (ForecastsPage.run evs) =
    Some (ForecastsPage.option_days (ForecastsPage.last_choice evs)) /\
  Js.template (ForecastsPage.option_days (ForecastsPage.last_choice evs)) =
    ForecastsPage.option_value (ForecastsPage.last_choice evs).
Proof.
  destruct (session_from evs ForecastsPage.initial ForecastsPage.opt14 eq_refl) as [Hd Hk].
  split; [exact Hk |].
  split; [apply requests_from_length |].
  split; [exact Hd |].
  destruct (ForecastsPage.last_choice evs); reflexivity.
Qed.

(** ** ESGScorecard: where the metrics on display come from *)

(** X18.  Once its effect has run the scorecard always has metrics to show.
    A metrics prop wins over everything else; without it a non-zero
    wasteSavedKg gives the legacy metrics and no request is needed; and a
    wasteSavedKg of zero counts as absent: the metrics are then those of the
    /esg response, or the fallback figures when the request fails. *)
Theorem scorecard_metrics_source (wasteSavedKg : option Q)
    (propMetrics : option Api.ESGMetrics) (o : ESGScorecard.FetchOutcome) :
  (exists m, ESGScorecard.metrics_state wasteSavedKg propMetrics o = Some m) /\
  (forall p, propMetrics = Some p ->
     ESGScorecard.metrics_state wasteSavedKg propMetrics o = Some p) /\
  (forall w, propMetrics = None -> wasteSavedKg = Some w -> ~ (w == 0)%Q ->
     ESGScorecard.metrics_state wasteSavedKg propMetrics o =
       Some (ESGScorecard.legacy_metrics w)) /\
  (forall w, propMetrics = None -> wasteSavedKg = Some w -> (w == 0)%Q ->
     ESGScorecard.metrics_state wasteSavedKg propMetrics o =
       ESGScorecard.metrics_state None None o) /\
  ESGScorecard.metrics_state None None o =
    Some match o with
         | ESGScorecard.FetchOk data => data
         | ESGScorecard.FetchFailed => ESGScorecard.fallback_metrics
         end.
Proof.
  unfold ESGScorecard.metrics_state.
  split; [| split; [| split; [| split]]].
  - destruct propMetrics as [p |], wasteSavedKg as [w |]; simpl;
      try destruct (Js.truthy w); simpl; try destruct o; eauto.
  - intros p ->. destruct wasteSavedKg as [w |]; simpl;
      try rewrite andb_false_r; reflexivity.
  - intros w -> -> Hw. simpl. unfold Js.truthy.
    destruct (Qeq_bool w 0) eqn:Hz; [apply Qeq_bool_iff in Hz; contradiction |].
    reflexivity.
  - intros w -> -> Hw. simpl. unfold Js.truthy.
    apply Qeq_bool_iff in Hw. rewrite Hw. reflexivity.
  - destruct o; reflexivity.
Qed.

(** ** AddStockModal: the quantity field *)

(** X19.  Whatever is typed in the quantity field, the quantity is a number:
    text that does not start with one counts as zero.  For a quantity of
    zero or less no insight is requested and the insight is cleared; the
    submit button is disabled for a quantity of zero, but a negative
    quantity leaves it enabled once a product and an expiry date are set. *)
Theorem quantity_input_guards (value : string) (r : AddStockModal.InsightReply)
    (st : AddStockModal.State) :
  (Js.parseInt value = None ->
   AddStockModal.quantity (AddStockModal.setQuantity value st) = 0%Z) /\
  ((AddStockModal.quantity (AddStockModal.setQuantity value st) <= 0)%Z ->
   AddStockModal.insight_requested (AddStockModal.setQuantity value st) = false /\
   AddStockModal.insight
     (AddStockModal.insight_effect r (AddStockModal.setQuantity value st)) = None) /\
  (AddStockModal.quantity (AddStockModal.setQuantity value st) = 0%Z ->
   AddStockModal.submit_disabled
     (AddStockModal.insight_effect r (AddStockModal.setQuantity value st)) = true) /\
  ((AddStockModal.quantity (AddStockModal.setQuantity value st) < 0)%Z ->
   AddStockModal.selectedProduct st <> "" ->
   AddStockModal.expiryDate st <> "" ->
   AddStockModal.submitting st = false ->
   AddStockModal.submit_disabled
     (AddStockModal.insight_effect r (AddStockModal.setQuantity value st)) = false).
Proof.
  assert (Htruthy : forall s, s <> "" -> Js.truthy_string s = true).
  { intros s Hs. unfold Js.truthy_string.
    destruct (String.eqb_spec s ""); [contradiction | reflexivity]. }
  split; [| split; [| split]].
  - intros Hnan. simpl. unfold AddStockModal.quantity_of_input. rewrite Hnan. reflexivity.
  - intros Hq.
    assert (Hreq : AddStockModal.insight_requested (AddStockModal.setQuantity value st) = false).
    { unfold AddStockModal.insight_requested.
      apply andb_false_iff. right. apply Z.ltb_ge. exact Hq. }
    split; [exact Hreq |].
    unfold AddStockModal.insight_effect. cbn [AddStockModal.insight].
    rewrite Hreq. reflexivity.
  - intros Hq. unfold AddStockModal.submit_disabled. simpl in *.
    rewrite Hq. simpl. rewrite !orb_true_r. reflexivity.
  - intros Hq Hp He Hs. unfold AddStockModal.submit_disabled. simpl in *.
    rewrite Hs, (Htruthy _ Hp), (Htruthy _ He). simpl.
    rewrite orb_false_r. apply Z.eqb_neq. lia.
Qed.

Lemma quantity_input_guards_witness :
  AddStockModal.quantity
    (AddStockModal.setQuantity "kg"
       {| AddStockModal.products := [];
          AddStockModal.selectedProduct := "P1";
          AddStockModal.quantity := 7;
          AddStockModal.expiryDate := "2026-01-09";
          AddStockModal.supplier := "Farm Fresh";
          AddStockModal.insight := None;
          AddStockModal.submitting := false |}) = 0%Z.
Proof.
  apply (quantity_input_guards "kg" AddStockModal.NoInsight). reflexivity.
Defined.

(** ** Numbers shown as text and read back *)

Lemma parse_digits_acc (u : Decimal.uint) :
  forall acc : positive,
    Js.parse_digits (NilEmpty.string_of_uint u) (Some (Zpos acc)) =
    Some (Zpos (Pos.of_uint_acc u acc)).
Proof.
  induction u as [| u IH | u IH | u IH | u IH | u IH | u IH | u IH | u IH | u IH | u IH];
    intros acc; [reflexivity | ..];
    cbn [NilEmpty.string_of_uint Js.parse_digits]; cbv [Js.digit_of]; cbn;
    rewrite <- IH; do 2 f_equal;
    repeat match goal with
           | |- context [Z.of_nat ?t] =>
               let v := eval vm_compute in (Z.of_nat t) in
               change (Z.of_nat t) with v
           end;
    lia.
Qed.

Lemma parse_digits_zero (u : Decimal.uint) :
  Js.parse_digits (NilEmpty.string_of_uint u) (Some 0%Z) =
  Some (Z.of_N (Pos.of_uint u)).
Proof.
  induction u as [| u IH | u | u | u | u | u | u | u | u | u];
    [reflexivity | exact IH | ..];
    cbn [NilEmpty.string_of_uint Js.parse_digits]; cbv [Js.digit_of]; cbn;
    apply (parse_digits_acc u).
Qed.

Lemma parse_digits_fresh (u : Decimal.uint) :
  u <> Decimal.Nil ->
  Js.parse_digits (NilEmpty.string_of_uint u) None = Some (Z.of_N (Pos.of_uint u)).
Proof.
  intros Hu. rewrite <- parse_digits_zero.
  destruct u; [congruence | ..]; reflexivity.
Qed.

Lemma parse_printed_positive (p : positive) :
  Js.parse_digits (NilZero.string_of_uint (Pos.to_uint p)) None = Some (Zpos p).
Proof.
  pose proof (DecimalPos.Unsigned.to_uint_nonnil p) as Hnil.
  pose proof (DecimalPos.Unsigned.of_to p) as Hback.
  unfold NilZero.string_of_uint.
  destruct (Pos.to_uint p) eqn:Hu; [congruence | ..];
    rewrite parse_digits_fresh by discriminate; rewrite Hback; reflexivity.
Qed.

(** X21.  An integer of at most 2^53 in magnitude (binary64 holds it
    exactly and it is printed with all its digits) that is printed as text
    and read back with parseInt is the integer itself.  So the quantity
    field, which shows the quantity (and nothing for zero), reads back the
    quantity it shows. *)
Theorem printed_number_reads_back (z : Z) (st : AddStockModal.State) :
  (Z.abs z <= 2 ^ 53)%Z ->
  Js.parseInt (Js.template z) = Some z /\
  ((Z.abs (AddStockModal.quantity st) <= 2 ^ 53)%Z ->
   AddStockModal.quantity_of_input (AddStockModal.quantity_text st) =
     AddStockModal.quantity st).
Proof.
  intros _.
  assert (Hround : forall n, Js.parseInt (Js.template n) = Some n).
  { intros [| p | p]; [reflexivity | |].
    - unfold Js.template. cbn [Z.to_int NilZero.string_of_int].
      pose proof (parse_printed_positive p) as Hp.
      pose proof (DecimalPos.Unsigned.to_uint_nonnil p) as Hnil.
      unfold NilZero.string_of_uint in *.
      destruct (Pos.to_uint p); [congruence | ..]; exact Hp.
    - unfold Js.template. cbn [Z.to_int NilZero.string_of_int Js.parseInt].
      rewrite parse_printed_positive. reflexivity. }
  split; [apply Hround |]. intros _.
  unfold AddStockModal.quantity_text, AddStockModal.quantity_of_input.
  destruct (Z.eqb_spec (AddStockModal.quantity st) 0) as [-> | Hne]; [reflexivity |].
  rewrite Hround. reflexivity.
Qed.

Lemma printed_number_reads_back_witness :
  Js.parseInt (Js.template 250) = Some 250%Z.
Proof.
  destruct (printed_number_reads_back 250
              {| AddStockModal.products := [];
                 AddStockModal.selectedProduct := "P1";
                 AddStockModal.quantity := 250;
                 AddStockModal.expiryDate := "2026-01-09";
                 AddStockModal.supplier := "Farm Fresh";
                 AddStockModal.insight := None;
                 AddStockModal.submitting := false |}) as [Hback _];
    [vm_compute; discriminate | exact Hback].
Defined.

(** ** AddStockModal: submitting *)

(** X20.  A submission that fails keeps everything the user entered, raises
    an alert and leaves the submit button as it was before the submission,
    so the user can retry.  A submission that succeeds reports success,
    closes the modal and empties the form: the submit button is then
    disabled and no insight is requested. *)
Theorem submit_keeps_or_resets (st : AddStockModal.State) :
  AddStockModal.submitting st = false ->
  (AddStockModal.selectedProduct (fst (AddStockModal.handleSubmit false st)) =
     AddStockModal.selectedProduct st /\
   AddStockModal.quantity (fst (AddStockModal.handleSubmit false st)) =
     AddStockModal.quantity st /\
   AddStockModal.expiryDate (fst (AddStockModal.handleSubmit false st)) =
     AddStockModal.expiryDate st /\
   AddStockModal.supplier (fst (AddStockModal.handleSubmit false st)) =
     AddStockModal.supplier st /\
   AddStockModal.insight (fst (AddStockModal.handleSubmit false st)) =
     AddStockModal.insight st /\
   AddStockModal.submit_disabled (fst (AddStockModal.handleSubmit false st)) =
     AddStockModal.submit_disabled st /\
   snd (AddStockModal.handleSubmit false st) =
     {| AddStockModal.onSuccess := false;
        AddStockModal.onClose := false;
        AddStockModal.alerted := true |}) /\
  (AddStockModal.quantity_text (fst (AddStockModal.handleSubmit true st)) = "" /\
   AddStockModal.selectedProduct (fst (AddStockModal.handleSubmit true st)) = "" /\
   AddStockModal.insight (fst (AddStockModal.handleSubmit true st)) = None /\
   AddStockModal.submit_disabled (fst (AddStockModal.handleSubmit true st)) = true /\
   AddStockModal.insight_requested (fst (AddStockModal.handleSubmit true st)) = false /\
   snd (AddStockModal.handleSubmit true st) =
     {| AddStockModal.onSuccess := true;
        AddStockModal.onClose := true;
        AddStockModal.alerted := false |}).
Proof.
  intros Hs. split.
  - repeat (split; [reflexivity |]). split; [| reflexivity].
    unfold AddStockModal.submit_disabled. simpl. rewrite Hs. reflexivity.
  - repeat split.
Qed.

Lemma submit_keeps_or_resets_witness :
  AddStockModal.quantity
    (fst (AddStockModal.handleSubmit false
            {| AddStockModal.products := [];
               AddStockModal.selectedProduct := "P1";
               AddStockModal.quantity := 7;
               AddStockModal.expiryDate := "2026-01-09";
               AddStockModal.supplier := "Farm Fresh";
               AddStockModal.insight := None;
               AddStockModal.submitting := false |})) = 7%Z.
Proof.
  eapply (submit_keeps_or_resets
            {| AddStockModal.products := [];
               AddStockModal.selectedProduct := "P1";
               AddStockModal.quantity := 7;
               AddStockModal.expiryDate := "2026-01-09";
               AddStockModal.supplier := "Farm Fresh";
               AddStockModal.insight := None;
               AddStockModal.submitting := false |}).
  reflexivity.
Defined.

(** ** InventoryTable: the two mild expiry levels *)

(** X23.  Beyond the expiry-risk band a lot is labelled Monitor for six to
    ten days left and Good for more than ten; the four labels are assigned
    to disjoint ranges of day counts that cover all integers. *)
Theorem expiry_status_monitor_good (days : Z) :
  (InventoryTable.label (InventoryTable.getExpiryStatus days) = "Monitor"
   <-> (5 < days <= 10)%Z) /\
  (InventoryTable.label (InventoryTable.getExpiryStatus days) = "Good"
   <-> (10 < days)%Z) /\
  (InventoryTable.label (InventoryTable.getExpiryStatus days) = "Critical"
   <-> (days <= 2)%Z) /\
  (InventoryTable.label (InventoryTable.getExpiryStatus days) = "Warning"
   <-> (2 < days <= 5)%Z).
Proof.
  unfold InventoryTable.getExpiryStatus.
  destruct (Z.leb_spec days 2); [| destruct (Z.leb_spec days 5);
                                   [| destruct (Z.leb_spec days 10)]];
    simpl; repeat split; intros; try discriminate; lia.
Qed.
